(** * The LXC execution driver of docker (execdriver/lxc/driver.go)

    A shallow embedding of the driver's launch, start-confirmation,
    signalling and PID-discovery code, and the properties its design
    document states about them.

    Go values are represented as follows: [string] is a byte string
    ([String.string]), [int] is [Z] (no arithmetic is performed on it in
    this file of the driver), a slice is a [list], a nil-able pointer or
    an [error] that may be nil is an [option].  Calls that leave the
    process (the file system, [os/exec], the clock, the channel closed by
    the exit watcher) read their answers from an explicit record of
    environment answers, and record what they did in a trace of events. *)

From Stdlib Require Import ZArith String Ascii List DecimalString Lia.
From stdpp Require Import base list strings gmap.
Import ListNotations.
Open Scope Z_scope.

#[local] Arguments String.append !_ _ / : simpl nomatch.

(** ** The parts of the Go standard library the driver calls *)

Module Go.

(** [strings.Split(s, sep)] for a separator of one byte (the driver
    only splits on a newline and on a space).  The result is never
    empty: splitting the empty string gives a slice holding one empty
    string. *)
Fixpoint Split (sep : ascii) (s : string) : list string :=
  match s with
  | EmptyString => [EmptyString]
  | String c s' =>
      if Ascii.eqb c sep then EmptyString :: Split sep s'
      else match Split sep s' with
           | w :: ws => String c w :: ws
           | [] => [String c EmptyString]
           end
  end.

(** [strings.HasPrefix(s, prefix)]. *)
Definition HasPrefix (s prefix : string) : bool := String.prefix prefix s.

(** [strings.Contains(s, substr)]. *)
Fixpoint Contains (s substr : string) : bool :=
  String.prefix substr s
  || match s with
     | EmptyString => false
     | String _ s' => Contains s' substr
     end.

(** [strings.Join(elems, sep)]. *)
Fixpoint JoinWith (sep : string) (elems : list string) : string :=
  match elems with
  | [] => EmptyString
  | [e] => e
  | e :: es => e +:+ sep +:+ JoinWith sep es
  end.

(** [strconv.Itoa(i)], also what [fmt]'s [%d] prints for an [int]. *)
Definition Itoa (i : Z) : string := NilEmpty.string_of_int (Z.to_int i).

(** *** [strconv.Atoi] *)

Inductive NumErr := ErrSyntax | ErrRange.

Definition digit_of (c : ascii) : option Z :=
  let n := Z.of_N (N_of_ascii c) in
  if (48 <=? n) && (n <=? 57) then Some (n - 48) else None.

(** The digit loop of [strconv.ParseUint(s, 10, 64)]: a byte that is
    not a digit stops with a syntax error, an accumulator that leaves
    the 64-bit range stops with a range error, whichever comes first. *)
Fixpoint parse_digits (s : string) (n : Z) : Z + NumErr :=
  match s with
  | EmptyString => inl n
  | String c s' =>
      match digit_of c with
      | None => inr ErrSyntax
      | Some v =>
          if (2 ^ 64 - 1) / 10 + 1 <=? n then inr ErrRange
          else if 2 ^ 64 - 1 <? n * 10 + v then inr ErrRange
          else parse_digits s' (n * 10 + v)
      end
  end.

Definition ParseUint (s : string) : Z + NumErr :=
  match s with
  | EmptyString => inr ErrSyntax
  | _ => parse_digits s 0
  end.

(** [strconv.Atoi(s)] on a platform whose [int] has 64 bits:
    [ParseInt(s, 10, 0)], an optional sign then [ParseUint]. *)
Definition Atoi (s : string) : Z + NumErr :=
  match s with
  | EmptyString => inr ErrSyntax
  | String c s' =>
      let neg := Ascii.eqb c "-" in
      let body := if Ascii.eqb c "+" || neg then s' else s in
      match ParseUint body with
      | inr e => inr e
      | inl un =>
          if negb neg && (2 ^ 63 <=? un) then inr ErrRange
          else if neg && (2 ^ 63 <? un) then inr ErrRange
          else inl (if neg then - un else un)
      end
  end.

(** *** [path.Join] (and [filepath.Join], the same function where the
    separator is a slash) *)

(** One step of [path.Clean] over the components between slashes:
    [stack] holds the components kept so far, last one first. *)
Definition clean_step (rooted : bool) (stack : list string) (comp : string)
  : list string :=
  if String.eqb comp EmptyString || String.eqb comp "." then stack
  else if String.eqb comp ".." then
    match stack with
    | top :: below =>
        if String.eqb top ".." then comp :: stack else below
    | [] => if rooted then [] else [comp]
    end
  else comp :: stack.

Definition Clean (p : string) : string :=
  match p with
  | EmptyString => "."
  | String c _ =>
      let rooted := Ascii.eqb c "/" in
      let kept := rev (fold_left (clean_step rooted) (Split "/" p) []) in
      let out := (if rooted then "/" else EmptyString) +:+ JoinWith "/" kept in
      if String.eqb out EmptyString then "." else out
  end.

(** [Join] drops the leading empty elements, joins what is left with
    slashes and cleans the result. *)
Fixpoint Join (elem : list string) : string :=
  match elem with
  | [] => EmptyString
  | e :: es => if String.eqb e EmptyString then Join es
               else Clean (JoinWith "/" elem)
  end.

(** *** [syscall.WaitStatus] on Linux: a 32-bit status word *)

Definition WaitStatus := Z.

Definition Exited (w : WaitStatus) : bool := Z.land w 127 =? 0.

Definition ExitStatus (w : WaitStatus) : Z :=
  if Exited w then Z.land (Z.shiftr w 8) 255 else -1.

(** [ProcessState.Success]: exit status zero. *)
Definition Success (w : WaitStatus) : bool := ExitStatus w =? 0.

End Go.

(** ** A POSIX shell's view of a command line *)

Module Sh.

(** Modelled from the spec: [utils.ShellQuoteArguments] belongs to
    package [utils] of this repository, which is not part of this file.
    The design document says of it that every launch argument is
    individually shell-escaped before concatenation.  Each argument is
    put between single quotes, a single quote inside it being written
    as a closing quote, an escaped quote and an opening quote; the
    escaped arguments are joined by one space. *)
Fixpoint escape (word : string) : string :=
  match word with
  | EmptyString => EmptyString
  | String c rest =>
      (if Ascii.eqb c "'" then "'\''" else String c EmptyString)
      +:+ escape rest
  end.

Definition quote (word : string) : string := "'" +:+ escape word +:+ "'".

Definition ShellQuoteArguments (args : list string) : string :=
  Go.JoinWith " " (map quote args).

(** How [/bin/sh] splits a simple command into words.  The lexer is
    between two words, inside an unquoted word, just after a
    backslash, or inside single quotes; [acc] is the word read so
    far. *)
Inductive lexer :=
| Between
| Word (acc : string)
| Escaped (acc : string)
| Quoted (acc : string).

Definition is_blank (c : ascii) : bool :=
  Ascii.eqb c " " || Ascii.eqb c "009" || Ascii.eqb c "010".

(** Bytes that, unquoted, can start an expansion, a redirection, a
    comment or another command: command lines using them are outside
    this model and are not split. *)
Definition is_operator (c : ascii) : bool :=
  existsb (Ascii.eqb c)
    ["034"; "`"; "$"; "{"; "}"; "["; "]"; "|"; "&"; ";"; "<"; ">"; "(";
     ")"; "~"; "*"; "?"; "!"; "#"; "="; "%"; "^"]%char.

Definition snoc (acc : string) (c : ascii) : string :=
  acc +:+ String c EmptyString.

Definition current (st : lexer) : string :=
  match st with
  | Between => EmptyString
  | Word acc | Escaped acc | Quoted acc => acc
  end.

Fixpoint split (st : lexer) (line : string) : option (list string) :=
  match line with
  | EmptyString =>
      match st with
      | Between => Some []
      | Word acc => Some [acc]
      | Escaped _ | Quoted _ => None
      end
  | String c rest =>
      match st with
      | Quoted acc =>
          if Ascii.eqb c "'" then split (Word acc) rest
          else split (Quoted (snoc acc c)) rest
      | Escaped acc =>
          if Ascii.eqb c "010" then None
          else split (Word (snoc acc c)) rest
      | Between | Word _ =>
          if is_blank c then
            match st with
            | Word acc => cons acc <$> split Between rest
            | _ => split Between rest
            end
          else if Ascii.eqb c "'" then split (Quoted (current st)) rest
          else if Ascii.eqb c "\" then split (Escaped (current st)) rest
          else if is_operator c then None
          else split (Word (snoc (current st) c)) rest
      end
  end.

Definition words (line : string) : option (list string) := split Between line.

(** [strip prefix s]: what follows [prefix] in [s]. *)
Fixpoint strip (prefix s : string) : option string :=
  match prefix, s with
  | EmptyString, _ => Some s
  | String a prefix', String b s' =>
      if Ascii.eqb a b then strip prefix' s' else None
  | String _ _, EmptyString => None
  end.

(** The command that the script given to [sh -c] by the driver ends up
    executing: the words after [mount --make-rslave /; exec ]. *)
Definition exec_argv (script : string) : option (list string) :=
  strip "mount --make-rslave /; exec " script ≫= words.

End Sh.

(** ** Statements that may return early *)

(** A Go function body is a sequence of statements over a mutable
    state; each statement either falls through to the next one with a
    value, executes a [return], or never gets further (a loop that is
    still running when the fuel is spent, a receive on a channel that is
    never closed). *)
Inductive step (R A : Type) : Type :=
| Next (a : A)
| Return (r : R)
| Stuck.

Arguments Next {R A} a.
Arguments Return {R A} r.
Arguments Stuck {R A}.

Definition M (S R A : Type) : Type := S -> S * step R A.

Definition ret {S R A} (a : A) : M S R A := fun s => (s, Next a).

Definition return_ {S R A} (r : R) : M S R A := fun s => (s, Return r).

Definition stuck {S R A} : M S R A := fun s => (s, Stuck).

Definition bind {S R A B} (m : M S R A) (k : A -> M S R B) : M S R B :=
  fun s =>
    match m s with
    | (s', Next a) => k a s'
    | (s', Return r) => (s', Return r)
    | (s', Stuck) => (s', Stuck)
    end.

(** A call: the callee's [return] value is the value of the call
    expression in the caller. *)
Definition call {S R R' A} (callee : M S R A) : M S R' R :=
  fun s =>
    match callee s with
    | (s', Return r) => (s', Next r)
    | (s', _) => (s', Stuck)
    end.

Declare Scope go_scope.
Delimit Scope go_scope with go.
Notation "x <- m ;; k" := (bind m (fun x => k))
  (at level 100, m at next level, k at level 200, right associativity)
  : go_scope.
Notation "m ;; k" := (bind m (fun _ => k))
  (at level 100, k at level 200, right associativity) : go_scope.

(** ** The driver *)

Module Lxc.
Import Go.
Open Scope go_scope.

Definition DriverName : string := "lxc".

(** [time.Duration] counts nanoseconds. *)
Definition Millisecond : Z := 1000000.
Definition Second : Z := 1000 * Millisecond.

(** *** Data *)

(** [execdriver.Network] and [execdriver.Command] are declared in
    package [execdriver]; the records below have the fields this file
    reads, with the types it uses them at. *)
Record Network := {
  Gateway : string;
  IPAddress : string;
  IPPrefixLen : Z;
  Mtu : Z }.

(** The fields of [execdriver.Command] that describe the container
    and that the driver only reads.  The fields it writes ([Path],
    [Args], [ProcessState]) live in the [state] below. *)
Record Command := {
  ID : string;
  InitPath : string;
  Entrypoint : string;
  Arguments : list string;
  WorkingDir : string;
  User : string;
  Privileged : bool;
  Net : option Network }.

Record driver := {
  root : string;
  apparmor : bool;
  sharedRoot : bool }.

(** Go [error] values, by dynamic type.  [SysError] stands for the
    errors of [os], [io/ioutil] and [os/exec] other than an exit
    status, with the answer [os.IsNotExist] gives on them.
    [ErrNotRunning] is modelled from the spec: it is the sentinel
    [execdriver.ErrNotRunning], declared in package [execdriver] outside
    this file, which the design document calls NotRunningError; it is a
    value of its own, different from every other error. *)
Inductive error :=
| ErrNotRunning
| ExitError (status : WaitStatus)
| NumError (num : string) (err : NumErr)
| SysError (msg : string) (notExist : bool)
| errorString (msg : string).

(** The texts of the errors whose wording belongs to the Go release or
    to another package. *)
Class ErrorText := {
  ExitError_text : WaitStatus -> string;
  NumError_text : string -> NumErr -> string;
  ErrNotRunning_text : string }.

(** The [Error] method. *)
Definition Error `{ErrorText} (e : error) : string :=
  match e with
  | ErrNotRunning => ErrNotRunning_text
  | ExitError status => ExitError_text status
  | NumError num err => NumError_text num err
  | SysError msg _ => msg
  | errorString msg => msg
  end.

Definition IsNotExist (err : option error) : bool :=
  match err with
  | Some (SysError _ notExist) => notExist
  | _ => false
  end.

Definition is_ExitError (e : error) : bool :=
  match e with
  | ExitError _ => true
  | _ => false
  end.

(** *** The host *)

(** What the host answers to the driver: the operating system, and
    the functions of other packages that this file calls ([SetTerminal],
    the compiled configuration template, package [cgroups]).  Commands
    are numbered in the order the driver runs them; the clock and the
    channel are read once per round of the start-confirmation loop, and
    are indexed by the number of [time.Sleep] calls completed before
    the reading. *)
Record host := {
  (** [exec.LookPath]. *)
  LookPath : string -> string + error;
  (** [exec.Command(argv...).CombinedOutput()], for the n-th command. *)
  Exec : nat -> list string -> string * option error;
  (** [time.Since(now)] in the loop condition of [waitForStart]. *)
  Since : nat -> Z;
  (** Whether [waitLock] is closed when the [select] looks at it. *)
  WaitLockClosed : nat -> bool;
  (** [os.Stat] (only the error is used). *)
  Stat : string -> option error;
  (** [ioutil.ReadFile]. *)
  ReadFile : string -> string + error;
  (** [cgroups.FindCgroupMountpoint] and [cgroups.GetThisCgroupDir]. *)
  FindCgroupMountpoint : string -> string + error;
  GetThisCgroupDir : string -> string + error;
  (** [SetTerminal(c, pipes)]. *)
  SetTerminal : option error;
  (** [os.Create] and the execution of the configuration template. *)
  Create : string -> option error;
  TemplateExecute : option error;
  (** [c.Start()]. *)
  Start : option error;
  (** [c.Process.Wait()]: the status the child is reaped with, or a
      failure of the wait itself; [None] when the child never exits. *)
  ProcessWait : option (WaitStatus + error);
  (** The first error of the goroutines copying the child's output. *)
  CopyError : option error }.

Inductive event :=
| EvExec (argv : list string)
| EvSince
| EvSelect (fired : bool)
| EvExitedCheck
| EvSleep (d : Z)
| EvStat (name : string)
| EvReadFile (name : string)
| EvStart (path : string) (args : list string)
| EvCallback
| EvWait
| EvClose
| EvCreate (name : string)
| EvExecute (name : string)
| EvFileClose (name : string).

Record state := {
  trace : list event;
  execs : nat;
  sleeps : nat;
  Path : string;
  Args : list string;
  ProcessState : option WaitStatus;
  waitErr : option error }.

Definition initial : state :=
  {| trace := []; execs := 0; sleeps := 0; Path := EmptyString; Args := [];
     ProcessState := None; waitErr := None |}.

Definition log (e : event) (s : state) : state :=
  {| trace := trace s ++ [e]; execs := execs s; sleeps := sleeps s;
     Path := Path s; Args := Args s; ProcessState := ProcessState s;
     waitErr := waitErr s |}.

(** The state after one more command, and after one more sleep. *)
Definition ran (argv : list string) (s : state) : state :=
  {| trace := trace s ++ [EvExec argv]; execs := S (execs s);
     sleeps := sleeps s; Path := Path s; Args := Args s;
     ProcessState := ProcessState s; waitErr := waitErr s |}.

Definition slept (d : Z) (s : state) : state :=
  {| trace := trace s ++ [EvSleep d]; execs := execs s;
     sleeps := S (sleeps s); Path := Path s; Args := Args s;
     ProcessState := ProcessState s; waitErr := waitErr s |}.

Definition emit {R} (e : event) : M state R unit :=
  fun s => (log e s, Next tt).

(** *** Primitive statements *)

Definition CombinedOutput {R} (h : host) (argv : list string)
  : M state R (string * option error) :=
  fun s => (ran argv s, Next (Exec h (execs s) argv)).

Definition time_Since {R} (h : host) : M state R Z :=
  fun s => (log EvSince s, Next (Since h (sleeps s))).

Definition time_Sleep {R} (d : Z) : M state R unit :=
  fun s => (slept d s, Next tt).

(** [select { case <-waitLock: ... default: }]: which branch runs. *)
Definition select_waitLock {R} (h : host) : M state R bool :=
  fun s =>
    let fired := WaitLockClosed h (sleeps s) in
    (log (EvSelect fired) s, Next fired).

(** [c.ProcessState != nil && c.ProcessState.Exited()]. *)
Definition ProcessState_Exited {R} : M state R bool :=
  fun s =>
    (log EvExitedCheck s,
     Next (match ProcessState s with
           | Some w => Exited w
           | None => false
           end)).

Definition os_Stat {R} (h : host) (name : string) : M state R (option error) :=
  emit (EvStat name) ;; ret (Stat h name).

Definition ioutil_ReadFile {R} (h : host) (name : string)
  : M state R (string + error) :=
  emit (EvReadFile name) ;; ret (ReadFile h name).

(** Assignments to [c.Path] and [c.Args], to [c.ProcessState] and to
    the variable [waitErr] of [Run]. *)
Definition with_Path_Args (path : string) (args : list string) (s : state)
  : state :=
  {| trace := trace s; execs := execs s; sleeps := sleeps s;
     Path := path; Args := args; ProcessState := ProcessState s;
     waitErr := waitErr s |}.

Definition with_ProcessState (st : option WaitStatus) (s : state) : state :=
  {| trace := trace s; execs := execs s; sleeps := sleeps s;
     Path := Path s; Args := Args s; ProcessState := st;
     waitErr := waitErr s |}.

Definition with_waitErr (e : option error) (s : state) : state :=
  {| trace := trace s; execs := execs s; sleeps := sleeps s;
     Path := Path s; Args := Args s; ProcessState := ProcessState s;
     waitErr := e |}.

Definition set_Path_Args {R} (path : string) (args : list string)
  : M state R unit :=
  fun s => (with_Path_Args path args s, Next tt).

Definition set_ProcessState {R} (st : option WaitStatus) : M state R unit :=
  fun s => (with_ProcessState st s, Next tt).

Definition set_waitErr {R} (e : option error) : M state R unit :=
  fun s => (with_waitErr e s, Next tt).

Definition get {R A} (f : state -> A) : M state R A :=
  fun s => (s, Next (f s)).

(** *** Start confirmation *)

Definition getInfo {R} (h : host) (id : string)
  : M state R (string * option error) :=
  CombinedOutput h ["lxc-info"; "-s"; "-n"; id].

(** The [for] loop of [waitForStart].  [fuel] bounds the number of
    rounds; a loop still running when it is spent is [Stuck]. *)
Fixpoint waitForStart_loop (fuel : nat) (h : host) (c : Command)
  : M state (option error) unit :=
  match fuel with
  | O => stuck
  | S fuel' =>
      elapsed <- time_Since h ;;
      if elapsed <? 5 * Second then
        fired <- select_waitLock h ;;
        (if fired : bool then
           (return_ None : M state (option error) unit) ;;
           exited <- ProcessState_Exited ;;
           if exited : bool then return_ None else ret tt
         else ret tt) ;;
        r <- getInfo h (ID c) ;;
        output <- match r with
                  | (_, Some _) =>
                      r <- getInfo h (ID c) ;;
                      match r with
                      | (_, Some err) => return_ (Some err)
                      | (output, None) => ret output
                      end
                  | (output, None) => ret output
                  end ;;
        if Contains output "RUNNING" then return_ None
        else
          time_Sleep (50 * Millisecond) ;;
          waitForStart_loop fuel' h c
      else ret tt
  end.

Definition waitForStart (fuel : nat) (h : host) (c : Command)
  : M state (option error) unit :=
  waitForStart_loop fuel h c ;;
  return_ (Some ErrNotRunning).

(** *** Signals *)

Definition kill `{ErrorText} (h : host) (c : Command) (sig : Z)
  : M state (option error) unit :=
  r <- match LookPath h "lxc-kill" with
       | inl _ => CombinedOutput h ["lxc-kill"; "-n"; ID c; Itoa sig]
       | inr _ => CombinedOutput h ["lxc-stop"; "-k"; "-n"; ID c; Itoa sig]
       end ;;
  match r with
  | (output, Some err) =>
      return_ (Some (errorString
                       ("Err: " +:+ Error err +:+ " Output: " +:+ output)))
  | (_, None) => return_ None
  end.

Definition Kill `{ErrorText} (h : host) (c : Command) (sig : Z)
  : M state (option error) unit :=
  e <- call (kill h c sig) ;; return_ e.

(** *** PIDs of a container *)

(** The [range] loop over the lines of the tasks file. *)
Fixpoint GetPidsForContainer_lines `{ErrorText}
    (lines : list string) (pids : list Z) : list Z * option error :=
  match lines with
  | [] => (pids, None)
  | p :: lines' =>
      if (String.length p =? 0)%nat then GetPidsForContainer_lines lines' pids
      else
        match Atoi p with
        | inr err =>
            (pids,
             Some (errorString
                     ("Invalid pid '" +:+ p +:+ "': "
                      +:+ Error (NumError p err))))
        | inl pid => GetPidsForContainer_lines lines' (pids ++ [pid])
        end
  end.

Definition GetPidsForContainer `{ErrorText} (h : host) (id : string)
  : M state (list Z * option error) unit :=
  let pids : list Z := [] in
  let subsystem := "memory" in
  match FindCgroupMountpoint h subsystem with
  | inr err => return_ (pids, Some err)
  | inl cgroupRoot =>
      match GetThisCgroupDir h subsystem with
      | inr err => return_ (pids, Some err)
      | inl cgroupDir =>
          let filename := Join [cgroupRoot; cgroupDir; id; "tasks"] in
          err <- os_Stat h filename ;;
          let filename :=
            if IsNotExist err
            then Join [cgroupRoot; cgroupDir; "lxc"; id; "tasks"]
            else filename in
          r <- ioutil_ReadFile h filename ;;
          match r with
          | inr err => return_ (pids, Some err)
          | inl output =>
              return_ (GetPidsForContainer_lines (Split "010" output) pids)
          end
      end
  end.

(** *** Shared root detection *)

(** A value, or the run-time panic of an index out of range. *)
Inductive checked (A : Type) : Type :=
| Value (a : A)
| Panic.

Arguments Value {A} a.
Arguments Panic {A}.

(** [cols[i]]. *)
Definition index (cols : list string) (i : nat) : checked string :=
  match cols !! i with
  | Some col => Value col
  | None => Panic
  end.

(** The [range] loop over the lines of the mount table; the lines
    left when it ends without a [return] give the final [true]. *)
Fixpoint rootIsShared_lines (lines : list string) : checked bool :=
  match lines with
  | [] => Value true
  | line :: lines' =>
      let cols := Split " " line in
      if (6 <=? length cols)%nat then
        match index cols 4 with
        | Panic => Panic
        | Value mountpoint =>
            if String.eqb mountpoint "/" then
              match index cols 6 with
              | Panic => Panic
              | Value propagation => Value (HasPrefix propagation "shared")
              end
            else rootIsShared_lines lines'
        end
      else rootIsShared_lines lines'
  end.

Definition rootIsShared (h : host) : checked bool :=
  match ReadFile h "/proc/self/mountinfo" with
  | inl data => rootIsShared_lines (Split "010" data)
  | inr _ => Value true
  end.

(** *** Launch *)

(** [os.Create] creates the file or truncates it ([EvCreate], also
    logged when the call fails); the template is then executed into
    the file ([EvExecute]) and the deferred [fo.Close()] runs when the
    function returns ([EvFileClose]), whether the template failed or
    not. *)
Definition generateLXCConfig {R} (h : host) (d : driver) (c : Command)
  : M state R (string * option error) :=
  let root := Join [root d; "containers"; ID c; "config.lxc"] in
  emit (EvCreate root) ;;
  match Create h root with
  | Some err => ret (EmptyString, Some err)
  | None =>
      emit (EvExecute root) ;;
      emit (EvFileClose root) ;;
      match TemplateExecute h with
      | Some err => ret (EmptyString, Some err)
      | None => ret (root, None)
      end
  end.

(** The argument vector of [lxc-start], lines 87 to 122 of [Run]. *)
Definition Run_params (d : driver) (c : Command) (configPath : string)
  : list string :=
  let params :=
    ["lxc-start"; "-n"; ID c; "-f"; configPath; "--"; InitPath c;
     "-driver"; DriverName] in
  let params :=
    match Net c with
    | Some n =>
        params ++ ["-g"; Gateway n;
                   "-i"; IPAddress n +:+ "/" +:+ Itoa (IPPrefixLen n);
                   "-mtu"; Itoa (Mtu n)]
    | None => params
    end in
  let params :=
    if negb (String.eqb (User c) EmptyString)
    then params ++ ["-u"; User c] else params in
  let params :=
    if Privileged c then
      let params :=
        if apparmor d
        then <[0%nat := Join [root d; "lxc-start-unconfined"]]> params
        else params in
      params ++ ["-privileged"]
    else params in
  let params :=
    if negb (String.eqb (WorkingDir c) EmptyString)
    then params ++ ["-w"; WorkingDir c] else params in
  let params := params ++ ["--"; Entrypoint c] in
  params ++ Arguments c.

(** The vector that is started, lines 124 to 138: the one above, or
    its wrapping when the root mount is shared. *)
Definition Run_argv (d : driver) (c : Command) (configPath : string)
  : list string :=
  let params := Run_params d c configPath in
  if sharedRoot d then
    let shellString :=
      "mount --make-rslave /; exec " +:+ Sh.ShellQuoteArguments params in
    ["unshare"; "-m"; "--"; "/bin/sh"; "-c"; shellString]
  else params.

(** [exec.Cmd.Wait]: reap the child, keep its state, and turn an
    unsuccessful state into an [ExitError]. *)
Definition Cmd_Wait {R} (h : host) : M state R (option error) :=
  emit EvWait ;;
  match ProcessWait h with
  | None => stuck
  | Some (inr err) => set_ProcessState None ;; ret (Some err)
  | Some (inl status) =>
      set_ProcessState (Some status) ;;
      if Success status then ret (CopyError h)
      else ret (Some (ExitError status))
  end.

(** The body of the goroutine started after a successful launch. *)
Definition exit_watcher (h : host) : M state unit unit :=
  err <- Cmd_Wait h ;;
  match err with
  | Some e => if negb (is_ExitError e) then set_waitErr (Some e) else ret tt
  | None => ret tt
  end ;;
  emit EvClose.

(** [<-waitLock] in the launching thread: it gets further once the
    goroutine has closed the channel, and what the goroutine wrote is
    visible from then on. *)
Definition recv_waitLock {R} (h : host) : M state R unit :=
  fun s =>
    match exit_watcher h s with
    | (s', Next _) => (s', Next tt)
    | (s', _) => (s', Stuck)
    end.

Definition getExitCode {R} : M state R Z :=
  st <- get ProcessState ;;
  match st with
  | None => ret (-1)
  | Some status => ret (ExitStatus status)
  end.

(** [startCallback] is [true] when the caller passed a callback.
    [Run] is given in two parts: the launch, up to [c.Start()] (lines
    80 to 153), and the supervision of the started child (lines 155 to
    179). *)
Definition Run_launch (h : host) (d : driver) (c : Command)
  : M state (Z * option error) unit :=
  match SetTerminal h with
  | Some err => return_ (-1, Some err)
  | None =>
      r <- generateLXCConfig h d c ;;
      match r with
      | (_, Some err) => return_ (-1, Some err)
      | (configPath, None) =>
          match Run_argv d c configPath with
          | [] => stuck
          | name :: arg =>
              let aname :=
                match LookPath h name with
                | inl found => found
                | inr _ => name
                end in
              set_Path_Args aname ([name] ++ arg) ;;
              emit (EvStart aname ([name] ++ arg)) ;;
              match Start h with
              | Some err => return_ (-1, Some err)
              | None => ret tt
              end
          end
      end
  end.

Definition Run_supervise (fuel : nat) (h : host) (c : Command)
    (startCallback : bool) : M state (Z * option error) unit :=
  set_waitErr None ;;
  err <- call (waitForStart fuel h c) ;;
  match err with
  | Some err => return_ (-1, Some err)
  | None =>
      (if startCallback then emit EvCallback else ret tt) ;;
      recv_waitLock h ;;
      code <- getExitCode ;;
      e <- get waitErr ;;
      return_ (code, e)
  end.

Definition Run (fuel : nat) (h : host) (d : driver) (c : Command)
    (startCallback : bool) : M state (Z * option error) unit :=
  Run_launch h d c ;;
  Run_supervise fuel h c startCallback.

End Lxc.

(** ** A host, a driver and a container to run the definitions on *)

Module Demo.
Import Go Lxc.

Definition net : Network :=
  {| Gateway := "172.17.42.1"; IPAddress := "172.17.0.2";
     IPPrefixLen := 16; Mtu := 1500 |}.

Definition web : Command :=
  {| ID := "c0ffee"; InitPath := "/.dockerinit"; Entrypoint := "/bin/sh";
     Arguments := ["-c"; "echo it's up"]; WorkingDir := "/srv";
     User := "www"; Privileged := true; Net := Some net |}.

Definition plain : Command :=
  {| ID := "c0ffee"; InitPath := "/.dockerinit"; Entrypoint := "/bin/true";
     Arguments := []; WorkingDir := EmptyString; User := EmptyString;
     Privileged := false; Net := None |}.

Definition shared : driver :=
  {| root := "/var/lib/docker"; apparmor := true; sharedRoot := true |}.

Definition direct : driver :=
  {| root := "/var/lib/docker"; apparmor := false; sharedRoot := false |}.

(** One wording of the error texts. *)
Definition text : ErrorText :=
  {| ExitError_text := fun w => "exit status " +:+ Itoa (ExitStatus w);
     NumError_text := fun num err =>
       "parsing " +:+ num +:+ ": "
       +:+ match err with
           | ErrSyntax => "invalid syntax"
           | ErrRange => "value out of range"
           end;
     ErrNotRunning_text := "not running" |}.

Definition enoent : error := SysError "no such file or directory" true.

(** A host on which every tool is installed, the container reports
    [status] to each query, each round of polling takes exactly the
    50 ms of its sleep, the channel is closed from round [exits_at]
    on, the child is reaped with [reaped], and the tasks file of the
    container, found under [lxc/] only, holds [tasks]. *)
Definition host_with (status : string) (exits_at : nat)
    (reaped : option (WaitStatus + error)) (tasks : string) : host :=
  {| LookPath := fun name => inl ("/usr/bin/" +:+ name);
     Exec := fun _ _ => (status, None);
     Since := fun k => 50 * Millisecond * Z.of_nat k;
     WaitLockClosed := fun k => (exits_at <=? k)%nat;
     Stat := fun name =>
       if String.eqb name "/sys/fs/cgroup/memory/lxc/c0ffee/tasks"
       then None else Some enoent;
     ReadFile := fun name =>
       if String.eqb name "/sys/fs/cgroup/memory/lxc/c0ffee/tasks"
       then inl tasks else inr enoent;
     FindCgroupMountpoint := fun _ => inl "/sys/fs/cgroup/memory";
     GetThisCgroupDir := fun _ => inl "/";
     SetTerminal := None;
     Create := fun _ => None;
     TemplateExecute := None;
     Start := None;
     ProcessWait := reaped;
     CopyError := None |}.

(** The same host without its tools: [lxc-kill] is not installed and
    every command fails with [failure]. *)
Definition broken (failure : error) : host :=
  let h := host_with "STOPPED" 1000 None EmptyString in
  {| LookPath := fun name => inr (SysError "executable file not found" true);
     Exec := fun _ _ => ("sh: not found", Some failure);
     Since := Since h; WaitLockClosed := WaitLockClosed h;
     Stat := Stat h; ReadFile := ReadFile h;
     FindCgroupMountpoint := fun _ => inr enoent;
     GetThisCgroupDir := GetThisCgroupDir h;
     SetTerminal := None; Create := Create h; TemplateExecute := None;
     Start := None; ProcessWait := None; CopyError := None |}.

(** The first host with [mountinfo] as its mount table. *)
Definition mounted (mountinfo : string) : host :=
  let h := host_with "STOPPED" 1000 None EmptyString in
  {| LookPath := LookPath h; Exec := Exec h; Since := Since h;
     WaitLockClosed := WaitLockClosed h; Stat := Stat h;
     ReadFile := fun name =>
       if String.eqb name "/proc/self/mountinfo" then inl mountinfo
       else ReadFile h name;
     FindCgroupMountpoint := FindCgroupMountpoint h;
     GetThisCgroupDir := GetThisCgroupDir h;
     SetTerminal := None; Create := Create h; TemplateExecute := None;
     Start := None; ProcessWait := None; CopyError := None |}.

(** A line feed, and lines put together into the content of a file. *)
Definition nl : string := String "010" EmptyString.

Definition tasks_ok : string := "123" +:+ nl +:+ "456" +:+ nl +:+ nl.

Definition tasks_bad : string := "123" +:+ nl +:+ "abc" +:+ nl.

End Demo.

(** ** The rest of the driver: state queries *)

Module Query.
Import Go Lxc.
Open Scope go_scope.

(** [strings.SplitN(s, sep, 2)] for a separator of one byte: the string
    itself when it does not hold the separator, and otherwise what
    comes before and what comes after its first occurrence. *)
Fixpoint SplitN2 (sep : ascii) (s : string) : list string :=
  match s with
  | EmptyString => [EmptyString]
  | String c s' =>
      if Ascii.eqb c sep then [EmptyString; s']
      else match SplitN2 sep s' with
           | w :: ws => String c w :: ws
           | [] => [String c EmptyString]
           end
  end.

(** [strings.TrimSpace], whose set of white space characters belongs to
    the Unicode tables of the Go release. *)
Class Strings := { TrimSpace : string -> string }.

(** [Restore] has no bound of its own: [fuel] bounds the number of
    queries, and a loop still polling when it is spent is [Stuck]. *)
Fixpoint Restore (fuel : nat) (h : host) (c : Command)
  : M state (option error) unit :=
  match fuel with
  | O => stuck
  | S fuel' =>
      r <- CombinedOutput h ["lxc-info"; "-n"; ID c] ;;
      match r with
      | (_, Some err) => return_ (Some err)
      | (output, None) =>
          if negb (Contains output "RUNNING") then return_ None
          else
            time_Sleep (500 * Millisecond) ;;
            Restore fuel' h c
      end
  end.

Definition version `{Strings} (h : host) : M state (checked string) unit :=
  let version := EmptyString in
  r <- CombinedOutput h ["lxc-version"] ;;
  match r with
  | (output, None) =>
      let outputStr := output in
      if (length (SplitN2 ":" outputStr) =? 2)%nat then
        match index (SplitN2 ":" outputStr) 1 with
        | Value part => return_ (Value (TrimSpace part))
        | Panic => return_ Panic
        end
      else return_ (Value version)
  | (_, Some _) => return_ (Value version)
  end.

Definition Name `{Strings} (h : host) : M state (checked string) unit :=
  v <- call (version h) ;;
  match v with
  | Value version => return_ (Value (DriverName +:+ "-" +:+ version))
  | Panic => return_ Panic
  end.

(** Events of the trace, by kind. *)
Definition is_callback (e : event) : bool :=
  match e with
  | EvCallback => true
  | _ => false
  end.

Definition is_start (e : event) : bool :=
  match e with
  | EvStart _ _ => true
  | _ => false
  end.

(** The events of the start-confirmation loop. *)
Definition is_polling (e : event) : bool :=
  match e with
  | EvSince | EvSelect _ | EvExec _ | EvSleep _ => true
  | _ => false
  end.

End Query.

(** ** The rest of the driver: construction *)

Module Setup.
Import Go Lxc.
Open Scope go_scope.

(** The directory entries the driver deals with at construction: a
    symbolic link, or anything else. *)
Inductive node :=
| Link (target : string)
| File.

Inductive fsop := OpLstat | OpRemove | OpSymlink.

(** A file system: its entries by path, and the operations the host
    refuses (permissions, a directory that is not empty, a missing
    parent directory, an input/output error), with the error given. *)
Record fsys := {
  entries : gmap string node;
  fault : fsop -> string -> option error }.

Definition ENOENT : error := SysError "no such file or directory" true.
Definition EEXIST : error := SysError "file exists" false.

Definition with_entries (m : gmap string node) (fs : fsys) : fsys :=
  {| entries := m; fault := fault fs |}.

(** [os.Lstat] (only the error is used). *)
Definition os_Lstat {R} (name : string) : M fsys R (option error) :=
  fun fs =>
    (fs,
     Next match fault fs OpLstat name with
          | Some e => Some e
          | None =>
              match entries fs !! name with
              | Some _ => None
              | None => Some ENOENT
              end
          end).

(** [os.Remove]. *)
Definition os_Remove {R} (name : string) : M fsys R (option error) :=
  fun fs =>
    match fault fs OpRemove name with
    | Some e => (fs, Next (Some e))
    | None =>
        match entries fs !! name with
        | Some _ => (with_entries (delete name (entries fs)) fs, Next None)
        | None => (fs, Next (Some ENOENT))
        end
    end.

(** [os.Symlink(oldname, newname)]: it does not replace an entry. *)
Definition os_Symlink {R} (oldname newname : string)
  : M fsys R (option error) :=
  fun fs =>
    match fault fs OpSymlink newname with
    | Some e => (fs, Next (Some e))
    | None =>
        match entries fs !! newname with
        | Some _ => (fs, Next (Some EEXIST))
        | None =>
            (with_entries (<[newname := Link oldname]> (entries fs)) fs,
             Next None)
        end
    end.

Definition linkLxcStart (h : host) (root : string)
  : M fsys (option error) unit :=
  match LookPath h "lxc-start" with
  | inr err => return_ (Some err)
  | inl sourcePath =>
      let targetPath := Join [root; "lxc-start-unconfined"] in
      err <- os_Lstat targetPath ;;
      match err with
      | Some e =>
          if negb (IsNotExist err) then return_ (Some e) else ret tt
      | None =>
          err <- os_Remove targetPath ;;
          match err with
          | Some e => return_ (Some e)
          | None => ret tt
          end
      end ;;
      err <- os_Symlink sourcePath targetPath ;;
      return_ err
  end.

(** [NewDriver] returns a driver or an error, unless the reading of the
    mount table panics. *)
Definition NewDriver (h : host) (root : string) (apparmor : bool)
  : M fsys (checked (option driver * option error)) unit :=
  err <- call (linkLxcStart h root) ;;
  match err with
  | Some err => return_ (Value (None, Some err))
  | None =>
      match rootIsShared h with
      | Panic => return_ Panic
      | Value shared =>
          return_ (Value (Some {| apparmor := apparmor; root := root;
                                  sharedRoot := shared |}, None))
      end
  end.

End Setup.

(** ** The rest of the driver: the init function run inside the
    container *)

Module Init.
Import Go Lxc.
Open Scope go_scope.

(** The five preparation steps, functions of other files of the
    package. *)
Inductive prepare :=
| setupHostname
| setupNetworking
| setupCapabilities
| setupWorkingDirectory
| changeUser.

(** What the container answers: the error of each step, [exec.LookPath],
    and the error of [syscall.Exec], which is [None] when the process
    image is replaced (the call then does not return). *)
Record inside := {
  Prepare : prepare -> option error;
  Locate : string -> string + error;
  ExecError : string -> list string -> option error }.

Inductive action :=
| Did (step : prepare)
| Printf (msg : string).

(** How the function ends: it returns an error, the process exits, the
    process becomes the command, or the function panics. *)
Inductive ending :=
| Returned (err : option error)
| Exit (code : Z)
| Replaced (path : string) (argv : list string)
| Panicked (msg : string).

Definition run_step (w : inside) (step : prepare)
  : M (list action) ending unit :=
  fun done =>
    match Prepare w step with
    | Some err => (done ++ [Did step], Return (Returned (Some err)))
    | None => (done ++ [Did step], Next tt)
    end.

Definition log_Printf (msg : string) : M (list action) ending unit :=
  fun done => (done ++ [Printf msg], Next tt).

Definition syscall_Exec (w : inside) (path : string) (argv : list string)
  : M (list action) ending (option error) :=
  fun done =>
    match ExecError w path argv with
    | Some err => (done, Next (Some err))
    | None => (done, Return (Replaced path argv))
    end.

(** The function registered by [init] for the driver ([args.Args] is
    the only field of [execdriver.InitArgs] it reads itself). *)
Definition initFunc `{ErrorText} (w : inside) (Args : list string)
  : M (list action) ending unit :=
  run_step w setupHostname ;;
  run_step w setupNetworking ;;
  run_step w setupCapabilities ;;
  run_step w setupWorkingDirectory ;;
  run_step w changeUser ;;
  match index Args 0 with
  | Panic => return_ (Panicked "index out of range")
  | Value arg0 =>
      match Locate w arg0 with
      | inr _ =>
          log_Printf ("Unable to locate " +:+ arg0) ;;
          return_ (Exit 127)
      | inl path =>
          err <- syscall_Exec w path Args ;;
          match err with
          | Some err =>
              return_ (Returned
                         (Some (errorString
                                  ("dockerinit unable to execute " +:+ path
                                   +:+ " - " +:+ Error err))))
          | None => return_ (Panicked "Unreachable")
          end
      end
  end.

End Init.

(** ** More hosts to run the definitions on *)

Module Sample.
Import Go Lxc.

(** The first host of [Demo], with [answer n] as the result of the
    n-th command. *)
Definition answering (answer : nat -> string * option error) : host :=
  let h := Demo.host_with "STOPPED" 1000 (Some (inl 0)) EmptyString in
  {| LookPath := LookPath h; Exec := fun n _ => answer n; Since := Since h;
     WaitLockClosed := WaitLockClosed h; Stat := Stat h;
     ReadFile := ReadFile h;
     FindCgroupMountpoint := FindCgroupMountpoint h;
     GetThisCgroupDir := GetThisCgroupDir h;
     SetTerminal := None; Create := Create h; TemplateExecute := None;
     Start := None; ProcessWait := ProcessWait h; CopyError := None |}.

(** The container reports [before] to the first [k] queries and
    [after] from then on. *)
Definition turning (k : nat) (before after : string) : host :=
  answering (fun n => (if (n <? k)%nat then before else after, None)).

(** The [k]-th query fails; the earlier ones report [RUNNING]. *)
Definition failing (k : nat) (err : error) : host :=
  answering (fun n => if (n <? k)%nat then ("RUNNING", None)
                      else ("lxc-info: failed", Some err)).

(** The child exits at [fired_at]: the channel is closed for every
    [select] that runs at or after that time.  Each round takes [step],
    and the container reports [STOPPED] throughout. *)
Definition exiting (fired_at step : Z) : host :=
  let h := Demo.host_with "STOPPED" 1000 (Some (inl 0)) EmptyString in
  {| LookPath := LookPath h; Exec := Exec h;
     Since := fun k => step * Z.of_nat k;
     WaitLockClosed := fun k => fired_at <=? step * Z.of_nat k;
     Stat := Stat h; ReadFile := ReadFile h;
     FindCgroupMountpoint := FindCgroupMountpoint h;
     GetThisCgroupDir := GetThisCgroupDir h;
     SetTerminal := None; Create := Create h; TemplateExecute := None;
     Start := None; ProcessWait := ProcessWait h; CopyError := None |}.

(** Every other query fails, beginning with the first one; the
    queries in between report [STOPPED]. *)
Definition flaky (err : error) : host :=
  answering (fun n => if Nat.even n then ("lxc-info: failed", Some err)
                      else ("STOPPED", None)).

(** The first host of [Demo], on which the configuration template
    cannot be rendered. *)
Definition unrenderable (err : error) : host :=
  let h := Demo.host_with "RUNNING" 1000 (Some (inl 0)) EmptyString in
  {| LookPath := LookPath h; Exec := Exec h; Since := Since h;
     WaitLockClosed := WaitLockClosed h; Stat := Stat h;
     ReadFile := ReadFile h;
     FindCgroupMountpoint := FindCgroupMountpoint h;
     GetThisCgroupDir := GetThisCgroupDir h;
     SetTerminal := None; Create := Create h; TemplateExecute := Some err;
     Start := None; ProcessWait := ProcessWait h; CopyError := None |}.

(** A file system with a stale link in the root of the driver. *)
Definition stale : Setup.fsys :=
  {| Setup.entries :=
       {[ "/var/lib/docker/lxc-start-unconfined" := Setup.Link "/old/lxc-start";
          "/var/lib/docker/containers" := Setup.File ]};
     Setup.fault := fun _ _ => None |}.

(** The same file system, on which no new link can be made. *)
Definition full (err : error) : Setup.fsys :=
  {| Setup.entries := Setup.entries stale;
     Setup.fault := fun op _ =>
       match op with
       | Setup.OpSymlink => Some err
       | _ => None
       end |}.

(** A container in which every step succeeds, [/bin/true] is the only
    command found, and [syscall.Exec] does what [outcome] says. *)
Definition ready (outcome : option error) : Init.inside :=
  {| Init.Prepare := fun _ => None;
     Init.Locate := fun name =>
       if String.eqb name "true" then inl "/bin/true"
       else inr (SysError "executable file not found in $PATH" true);
     Init.ExecError := fun _ _ => outcome |}.

(** The same container, in which step [bad] fails. *)
Definition failing_step (bad : Init.prepare) (err : error) : Init.inside :=
  {| Init.Prepare := fun step =>
       match bad, step with
       | Init.setupHostname, Init.setupHostname
       | Init.setupNetworking, Init.setupNetworking
       | Init.setupCapabilities, Init.setupCapabilities
       | Init.setupWorkingDirectory, Init.setupWorkingDirectory
       | Init.changeUser, Init.changeUser => Some err
       | _, _ => None
       end;
     Init.Locate := Init.Locate (ready None);
     Init.ExecError := fun _ _ => None |}.

(** A stand-in for [strings.TrimSpace] that is right on a string with
    one leading space and no other white space at its ends. *)
Definition trim : Query.Strings :=
  {| Query.TrimSpace := fun s =>
       match s with
       | String " " rest => rest
       | _ => s
       end |}.

End Sample.

Example Split_lines : Go.Split "010" (String "1" (String "2" (String "010" EmptyString)))
  = ["12"; EmptyString].
Proof. reflexivity. Qed.

Example Join_tasks :
  Go.Join ["/sys/fs/cgroup/memory"; "/"; "abc"; "tasks"]
  = "/sys/fs/cgroup/memory/abc/tasks".
Proof. reflexivity. Qed.

Example Clean_dots : Go.Clean "a//b/./c/../../d/" = "a/d".
Proof. reflexivity. Qed.

Example Atoi_samples :
  Go.Atoi "123" = inl 123 /\ Go.Atoi "-7" = inl (-7)
  /\ Go.Atoi "abc" = inr Go.ErrSyntax /\ Go.Atoi "+" = inr Go.ErrSyntax
  /\ Go.Atoi "9223372036854775808" = inr Go.ErrRange
  /\ Go.Atoi "-9223372036854775808" = inl (-9223372036854775808).
Proof. vm_compute. repeat split. Qed.

Example ExitStatus_samples :
  Go.ExitStatus 256 = 1 /\ Go.ExitStatus 9 = -1 /\ Go.ExitStatus 0 = 0.
Proof. repeat split. Qed.

Example quote_sample : Sh.quote "it's" = "'it'\''s'".
Proof. reflexivity. Qed.

Example words_sample :
  Sh.words "lxc-start -n 'a b' it\'s 'x'\''y' ''" = Some ["lxc-start"; "-n"; "a b"; "it's"; "x'y"; EmptyString].
Proof. reflexivity. Qed.

(** ** Strings *)

Lemma append_assoc (a b c : string) : (a +:+ b) +:+ c = a +:+ (b +:+ c).
Proof. induction a as [|x a IH]; simpl; [reflexivity | now rewrite IH]. Qed.

Lemma append_empty_r (a : string) : a +:+ EmptyString = a.
Proof. induction a as [|x a IH]; simpl; [reflexivity | now rewrite IH]. Qed.

Lemma snoc_append (acc : string) (c : ascii) (w : string) :
  Sh.snoc acc c +:+ w = acc +:+ String c w.
Proof. unfold Sh.snoc. now rewrite append_assoc. Qed.

Lemma strip_append (prefix s : string) : Sh.strip prefix (prefix +:+ s) = Some s.
Proof.
  induction prefix as [|a prefix IH]; simpl; [reflexivity |].
  now rewrite Ascii.eqb_refl.
Qed.

(** ** Quoting for the shell and reading it back *)

Section ShellRoundTrip.

(** Inside single quotes the lexer reads the escaped word back, byte
    for byte, up to the closing quote. *)
Lemma split_escape (word acc rest : string) :
  Sh.split (Sh.Quoted acc) (Sh.escape word +:+ String "'" rest)
  = Sh.split (Sh.Word (acc +:+ word)) rest.
Proof.
  revert acc. induction word as [|c word IH]; intros acc.
  - simpl. now rewrite append_empty_r.
  - simpl Sh.escape. destruct (Ascii.eqb c "'") eqn:Hc.
    + apply Ascii.eqb_eq in Hc. subst c. simpl.
      rewrite IH. now rewrite snoc_append.
    + simpl. rewrite Hc.
      rewrite IH. now rewrite snoc_append.
Qed.

Lemma split_quote (word rest : string) :
  Sh.split Sh.Between (Sh.quote word +:+ rest)
  = Sh.split (Sh.Word word) rest.
Proof.
  unfold Sh.quote. rewrite !append_assoc. simpl.
  now rewrite split_escape.
Qed.

Lemma words_ShellQuoteArguments (args : list string) :
  Sh.words (Sh.ShellQuoteArguments args) = Some args.
Proof.
  unfold Sh.words, Sh.ShellQuoteArguments.
  induction args as [|a args IH]; [reflexivity |].
  destruct args as [|b args].
  - change (Sh.split Sh.Between (Sh.quote a) = Some [a]).
    rewrite <- (append_empty_r (Sh.quote a)), split_quote. reflexivity.
  - change (Go.JoinWith " " (map Sh.quote (a :: b :: args)))
      with (Sh.quote a +:+ " " +:+ Go.JoinWith " " (map Sh.quote (b :: args))).
    rewrite split_quote.
    change (cons a <$> Sh.split Sh.Between
              (Go.JoinWith " " (map Sh.quote (b :: args)))
            = Some (a :: b :: args)).
    rewrite IH. reflexivity.
Qed.

End ShellRoundTrip.

(** ** The argument vector of the isolation tool *)

Section Launch.
Import Go Lxc.

(** C1.  [Run] assembles the argument vector in a fixed order: the
    program name, [-n ID], [-f configPath], [--], the init path,
    [-driver lxc]; the three network options exactly when the command
    has a network; [-u user] exactly when a user is set; [-privileged]
    exactly when the command is privileged; [-w workdir] exactly when a
    working directory is set; then [--], the entrypoint and the
    arguments as they are.  A command with none of the four options
    gives the fixed tokens alone. *)
Theorem Run_params_order (d : driver) (c : Command) (configPath : string) :
  Run_params d c configPath
  = [ (if Privileged c && apparmor d
       then Join [root d; "lxc-start-unconfined"] else "lxc-start");
      "-n"; ID c; "-f"; configPath; "--"; InitPath c; "-driver"; "lxc" ]
    ++ match Net c with
       | Some n => ["-g"; Gateway n;
                    "-i"; IPAddress n +:+ "/" +:+ Itoa (IPPrefixLen n);
                    "-mtu"; Itoa (Mtu n)]
       | None => []
       end
    ++ (if String.eqb (User c) EmptyString then [] else ["-u"; User c])
    ++ (if Privileged c then ["-privileged"] else [])
    ++ (if String.eqb (WorkingDir c) EmptyString then []
        else ["-w"; WorkingDir c])
    ++ ["--"; Entrypoint c] ++ Arguments c
  /\ forall id init entry args,
      Run_params d
        {| ID := id; InitPath := init; Entrypoint := entry;
           Arguments := args; WorkingDir := EmptyString;
           User := EmptyString; Privileged := false; Net := None |}
        configPath
      = ["lxc-start"; "-n"; id; "-f"; configPath; "--"; init;
         "-driver"; "lxc"; "--"; entry] ++ args.
Proof.
  split; [| reflexivity].
  unfold Run_params, DriverName.
  destruct (Net c) as [n|], (String.eqb (User c) EmptyString),
    (Privileged c), (apparmor d), (String.eqb (WorkingDir c) EmptyString);
    reflexivity.
Qed.

(** C2.  When the root mount is shared, the vector [Run] starts is
    the [unshare] wrapper around a shell script: the remount followed
    by [exec] and the quoted launch arguments; the command the shell
    reads back from the script is the unwrapped vector. *)
Theorem Run_argv_sharedRoot (d : driver) (c : Command) (configPath : string) :
  sharedRoot d = true ->
  exists shellString,
    Run_argv d c configPath
    = ["unshare"; "-m"; "--"; "/bin/sh"; "-c"; shellString]
    /\ shellString
       = "mount --make-rslave /; exec "
         +:+ JoinWith " " (map Sh.quote (Run_params d c configPath))
    /\ Sh.exec_argv shellString = Some (Run_params d c configPath).
Proof.
  intros Hshared. unfold Run_argv. rewrite Hshared.
  eexists. split; [reflexivity |]. split; [reflexivity |].
  unfold Sh.exec_argv. rewrite strip_append.
  apply words_ShellQuoteArguments.
Qed.

Lemma Run_argv_sharedRoot_witness :
  exists shellString,
    Run_argv Demo.shared Demo.web "/var/lib/docker/containers/c0ffee/config.lxc"
    = ["unshare"; "-m"; "--"; "/bin/sh"; "-c"; shellString]
    /\ shellString
       = "mount --make-rslave /; exec "
         +:+ JoinWith " "
               (map Sh.quote
                  (Run_params Demo.shared Demo.web
                     "/var/lib/docker/containers/c0ffee/config.lxc"))
    /\ Sh.exec_argv shellString
       = Some (Run_params Demo.shared Demo.web
                 "/var/lib/docker/containers/c0ffee/config.lxc").
Proof. apply (Run_argv_sharedRoot Demo.shared Demo.web). reflexivity. Defined.

(** The generation of the configuration, effect by effect. *)
Lemma generateLXCConfig_run {R} (h : host) (d : driver) (c : Command)
    (s : state) :
  let name := Join [root d; "containers"; ID c; "config.lxc"] in
  generateLXCConfig (R := R) h d c s
  = match Create h name with
    | Some err => (log (EvCreate name) s, Next (EmptyString, Some err))
    | None =>
        (log (EvFileClose name) (log (EvExecute name) (log (EvCreate name) s)),
         Next match TemplateExecute h with
              | Some err => (EmptyString, Some err)
              | None => (name, None)
              end)
    end.
Proof.
  unfold generateLXCConfig, bind, emit, ret. cbn beta iota zeta.
  destruct (Create h _); [reflexivity |].
  destruct (TemplateExecute h); reflexivity.
Qed.

(** What [Run] starts is the vector of lines 124 to 138, which is never
    empty: the launch is never [Stuck]. *)
Lemma Run_launch_started (h : host) (d : driver) (c : Command) (s : state) :
  let configPath := Join [root d; "containers"; ID c; "config.lxc"] in
  SetTerminal h = None ->
  Create h configPath = None ->
  TemplateExecute h = None ->
  exists name arg,
    Run_argv d c configPath = name :: arg
    /\ let aname :=
         match LookPath h name with
         | inl found => found
         | inr _ => name
         end in
       Run_launch h d c s
       = (log (EvStart aname (name :: arg))
            (with_Path_Args aname (name :: arg)
               (log (EvFileClose configPath)
                  (log (EvExecute configPath) (log (EvCreate configPath) s)))),
          match Start h with
          | Some err => Return (-1, Some err)
          | None => Next tt
          end).
Proof.
  intros configPath Hterm Hcreate Htemplate.
  assert (Hargv : exists name arg, Run_argv d c configPath = name :: arg).
  { unfold Run_argv, Run_params.
    destruct (sharedRoot d), (Net c), (String.eqb (User c) EmptyString),
      (Privileged c), (apparmor d), (String.eqb (WorkingDir c) EmptyString);
      cbn; eauto. }
  destruct Hargv as (name & arg & Hargv). exists name, arg.
  split; [exact Hargv |].
  unfold Run_launch. rewrite Hterm. unfold bind at 1.
  rewrite generateLXCConfig_run. fold configPath.
  rewrite Hcreate, Htemplate, Hargv.
  unfold bind, set_Path_Args, emit, return_, ret. cbn beta iota zeta.
  destruct (Start h); reflexivity.
Qed.

End Launch.

Example Run_params_web :
  Lxc.Run_params Demo.shared Demo.web "/cfg"
  = ["/var/lib/docker/lxc-start-unconfined"; "-n"; "c0ffee"; "-f"; "/cfg";
     "--"; "/.dockerinit"; "-driver"; "lxc"; "-g"; "172.17.42.1";
     "-i"; "172.17.0.2/16"; "-mtu"; "1500"; "-u"; "www"; "-privileged";
     "-w"; "/srv"; "--"; "/bin/sh"; "-c"; "echo it's up"].
Proof. reflexivity. Qed.

Example Run_argv_web :
  Lxc.Run_argv Demo.shared Demo.plain "/cfg"
  = ["unshare"; "-m"; "--"; "/bin/sh"; "-c";
     "mount --make-rslave /; exec 'lxc-start' '-n' 'c0ffee' '-f' '/cfg' '--' '/.dockerinit' '-driver' 'lxc' '--' '/bin/true'"].
Proof. reflexivity. Qed.

(** ** Start confirmation *)

(** What logging, running a command and sleeping leave unchanged. *)
Section StateFields.
Import Lxc.

Lemma sleeps_log e s : sleeps (log e s) = sleeps s.
Proof. reflexivity. Qed.

Lemma execs_log e s : execs (log e s) = execs s.
Proof. reflexivity. Qed.

Lemma sleeps_ran argv s : sleeps (ran argv s) = sleeps s.
Proof. reflexivity. Qed.

Lemma execs_ran argv s : execs (ran argv s) = S (execs s).
Proof. reflexivity. Qed.

Lemma sleeps_slept d s : sleeps (slept d s) = S (sleeps s).
Proof. reflexivity. Qed.

Lemma execs_slept d s : execs (slept d s) = execs s.
Proof. reflexivity. Qed.

Lemma trace_log e s : trace (log e s) = trace s ++ [e].
Proof. reflexivity. Qed.

Lemma trace_ran argv s : trace (ran argv s) = trace s ++ [EvExec argv].
Proof. reflexivity. Qed.

Lemma trace_slept d s : trace (slept d s) = trace s ++ [EvSleep d].
Proof. reflexivity. Qed.

End StateFields.

Ltac state_fields :=
  repeat progress
    rewrite ?sleeps_log, ?execs_log, ?sleeps_ran, ?execs_ran, ?sleeps_slept,
      ?execs_slept, ?trace_log, ?trace_ran, ?trace_slept in *.

Section StartConfirmation.
Import Go Lxc.

Variable h : host.
Variable c : Command.

(** The status query of the container. *)
Let info : list string := ["lxc-info"; "-s"; "-n"; ID c].

(** One round of the loop, statement by statement. *)
Lemma waitForStart_loop_round (fuel : nat) (s : state) :
  waitForStart_loop (S fuel) h c s
  = let s1 := log EvSince s in
    if Since h (sleeps s) <? 5 * Second then
      let s2 := log (EvSelect (WaitLockClosed h (sleeps s))) s1 in
      if WaitLockClosed h (sleeps s) then (s2, Return None)
      else
        match Exec h (execs s) info with
        | (output, None) =>
            if Contains output "RUNNING" then (ran info s2, Return None)
            else waitForStart_loop fuel h c
                   (slept (50 * Millisecond) (ran info s2))
        | (_, Some _) =>
            match Exec h (S (execs s)) info with
            | (_, Some err) => (ran info (ran info s2), Return (Some err))
            | (output, None) =>
                if Contains output "RUNNING"
                then (ran info (ran info s2), Return None)
                else waitForStart_loop fuel h c
                       (slept (50 * Millisecond) (ran info (ran info s2)))
            end
        end
    else (s1, Next tt).
Proof.
  cbn [waitForStart_loop].
  unfold bind, time_Since, select_waitLock, getInfo, CombinedOutput,
    time_Sleep, return_, ret; cbn beta iota zeta.
  destruct (Since h (sleeps s) <? 5 * Second); [| reflexivity].
  state_fields.
  destruct (WaitLockClosed h (sleeps s)); [reflexivity |].
  state_fields. fold info.
  destruct (Exec h (execs s) info) as [out1 [e1|]].
  - state_fields.
    destruct (Exec h (S (execs s)) info) as [out2 [e2|]]; [reflexivity |].
    destruct (Contains out2 "RUNNING"); reflexivity.
  - destruct (Contains out1 "RUNNING"); reflexivity.
Qed.

Lemma waitForStart_loop_no_ExitedCheck (fuel : nat) (s : state) :
  ~ In EvExitedCheck (trace s) ->
  ~ In EvExitedCheck (trace (fst (waitForStart_loop fuel h c s))).
Proof.
  revert s. induction fuel as [|fuel IH]; intros s Hs; [exact Hs |].
  rewrite waitForStart_loop_round. cbn zeta.
  assert (Hfresh : forall e t, e <> EvExitedCheck ->
            ~ In EvExitedCheck t -> ~ In EvExitedCheck (t ++ [e])).
  { intros e t He Ht. rewrite in_app_iff. cbn. intuition congruence. }
  repeat match goal with
         | |- context [if ?b then _ else _] => destruct b
         | |- context [match ?r with (_, _) => _ end] => destruct r
         | |- context [match ?o with Some _ => _ | None => _ end] =>
             destruct o
         end;
    try apply IH; cbn [fst]; state_fields;
    repeat (apply Hfresh; [discriminate |]); exact Hs.
Qed.

(** Past the bound nothing is looked at: the loop condition fails and
    the function returns [ErrNotRunning], whatever the channel and the
    status of the container are. *)
Lemma waitForStart_past_bound (fuel : nat) (s : state) :
  5 * Second <= Since h (sleeps s) ->
  waitForStart (S fuel) h c s = (log EvSince s, Return (Some ErrNotRunning)).
Proof.
  intros Hpast. unfold waitForStart, bind.
  rewrite waitForStart_loop_round. cbn zeta.
  apply Z.ltb_ge in Hpast. rewrite Hpast. reflexivity.
Qed.

(** The signal seen in round [k], after [k] rounds that go through. *)
Lemma waitForStart_signal_in_round (k fuel : nat) (s : state) :
  (k < fuel)%nat ->
  (forall j, (j < k)%nat ->
     Since h (sleeps s + j) < 5 * Second
     /\ WaitLockClosed h (sleeps s + j) = false
     /\ exists out, Exec h (execs s + j) info = (out, None)
                    /\ Contains out "RUNNING" = false) ->
  Since h (sleeps s + k) < 5 * Second ->
  WaitLockClosed h (sleeps s + k) = true ->
  snd (waitForStart fuel h c s) = Return None
  /\ sleeps (fst (waitForStart fuel h c s)) = (sleeps s + k)%nat
  /\ execs (fst (waitForStart fuel h c s)) = (execs s + k)%nat.
Proof.
  unfold waitForStart, bind.
  revert fuel s. induction k as [|k IH];
    intros fuel s Hfuel Hrounds Htime Hfired;
    (destruct fuel as [|fuel]; [lia |]);
    rewrite waitForStart_loop_round; cbn zeta.
  - rewrite Nat.add_0_r in Htime, Hfired.
    apply Z.ltb_lt in Htime. rewrite Htime, Hfired.
    cbn [fst snd]. state_fields. repeat split; lia.
  - destruct (Hrounds 0%nat) as (Ht0 & Hopen & out & Hout & Hnot); [lia |].
    rewrite Nat.add_0_r in Ht0, Hopen, Hout.
    apply Z.ltb_lt in Ht0. rewrite Ht0, Hopen, Hout, Hnot.
    set (s' := slept _ _).
    assert (Hsl : sleeps s' = S (sleeps s)) by reflexivity.
    assert (Hex : execs s' = S (execs s)) by reflexivity.
    specialize (IH fuel s'). rewrite Hsl, Hex in IH.
    destruct IH as (Hres & Hsleeps & Hexecs).
    + lia.
    + intros j Hj.
      replace (S (sleeps s) + j)%nat with (sleeps s + S j)%nat by lia.
      replace (S (execs s) + j)%nat with (execs s + S j)%nat by lia.
      apply Hrounds. lia.
    + replace (S (sleeps s) + k)%nat with (sleeps s + S k)%nat by lia.
      exact Htime.
    + replace (S (sleeps s) + k)%nat with (sleeps s + S k)%nat by lia.
      exact Hfired.
    + destruct (waitForStart_loop fuel h c s') as [s1 [[]|r|]];
        cbn [fst snd] in *; try discriminate.
      repeat split; [exact Hres | lia | lia].
Qed.

(** C3.  The completion signal is looked at once per round, by the
    [select] at the start of a round entered before five seconds have
    elapsed.  In such a round a signal that has fired makes
    [waitForStart] return nil at once, through the [return] of the
    signal branch: nothing is queried in that round, and it does not
    matter that no earlier query reported [RUNNING].  A round that
    starts at or after the bound does not look at the signal and
    returns [ErrNotRunning].  The check of [ProcessState.Exited] that
    follows the [return] of the signal branch is executed in no run. *)
Theorem waitForStart_exit_signal (fuel : nat) (s : state) :
  (Since h (sleeps s) < 5 * Second ->
   WaitLockClosed h (sleeps s) = true ->
   waitForStart (S fuel) h c s
   = (log (EvSelect true) (log EvSince s), Return None))
  /\ (forall k,
        (k < fuel)%nat ->
        (forall j, (j < k)%nat ->
           Since h (sleeps s + j) < 5 * Second
           /\ WaitLockClosed h (sleeps s + j) = false
           /\ exists out, Exec h (execs s + j) info = (out, None)
                          /\ Contains out "RUNNING" = false) ->
        Since h (sleeps s + k) < 5 * Second ->
        WaitLockClosed h (sleeps s + k) = true ->
        snd (waitForStart fuel h c s) = Return None
        /\ sleeps (fst (waitForStart fuel h c s)) = (sleeps s + k)%nat
        /\ execs (fst (waitForStart fuel h c s)) = (execs s + k)%nat)
  /\ (5 * Second <= Since h (sleeps s) ->
      waitForStart (S fuel) h c s
      = (log EvSince s, Return (Some ErrNotRunning)))
  /\ (~ In EvExitedCheck (trace s) ->
      ~ In EvExitedCheck (trace (fst (waitForStart fuel h c s)))).
Proof.
  split; [| split; [| split]].
  - intros Htime Hfired. unfold waitForStart, bind.
    rewrite waitForStart_loop_round. cbn zeta.
    apply Z.ltb_lt in Htime. rewrite Htime, Hfired. reflexivity.
  - intros k. apply waitForStart_signal_in_round.
  - apply waitForStart_past_bound.
  - intros Hs. unfold waitForStart, bind, return_.
    pose proof (waitForStart_loop_no_ExitedCheck fuel s Hs) as Hloop.
    destruct (waitForStart_loop fuel h c s) as [s' [[]|r|]]; exact Hloop.
Qed.

(** C5.  In a round where the first status query fails, the query is
    run exactly once more.  If that second query fails too, its error
    is what [waitForStart] returns, with no further query and no
    further round; if it succeeds, its output decides between
    returning nil and sleeping before the next round. *)
Theorem waitForStart_retry_once (fuel : nat) (s : state)
    (out1 : string) (e1 : error) :
  Since h (sleeps s) < 5 * Second ->
  WaitLockClosed h (sleeps s) = false ->
  Exec h (execs s) info = (out1, Some e1) ->
  let s' := ran info (ran info (log (EvSelect false) (log EvSince s))) in
  match Exec h (S (execs s)) info with
  | (_, Some e2) => waitForStart (S fuel) h c s = (s', Return (Some e2))
  | (out2, None) =>
      if Contains out2 "RUNNING"
      then waitForStart (S fuel) h c s = (s', Return None)
      else waitForStart (S fuel) h c s
           = waitForStart fuel h c (slept (50 * Millisecond) s')
  end.
Proof.
  intros Htime Hquiet Hfirst s'. apply Z.ltb_lt in Htime.
  destruct (Exec h (S (execs s)) info) as [out2 [e2|]] eqn:Hsecond;
    [| destruct (Contains out2 "RUNNING") eqn:Hrun];
    unfold waitForStart, bind; rewrite waitForStart_loop_round; cbn zeta;
    rewrite Htime, Hquiet, Hfirst, Hsecond, ?Hrun; reflexivity.
Qed.

(** *** The five-second bound *)

Section Timeout.

(** The clock does not run backwards before the loop and every
    sleep lasts at least the 50 ms asked for. *)
Hypothesis Hentry : 0 <= Since h 0.
Hypothesis Hsleep : forall k, Since h k + 50 * Millisecond <= Since h (S k).

Lemma Since_lower_bound (k : nat) :
  50 * Millisecond * Z.of_nat k <= Since h k.
Proof.
  induction k as [|k IH]; [unfold Millisecond; lia |].
  specialize (Hsleep k). unfold Millisecond in *. lia.
Qed.

Lemma round_before_bound (k : nat) :
  Since h k < 5 * Second -> (k < 100)%nat.
Proof.
  intros Hk. pose proof (Since_lower_bound k) as Hlow.
  unfold Second, Millisecond in *. lia.
Qed.

(** No status query fails twice in a row, no successful query reports
    [RUNNING], and the completion signal is not seen while the bound
    has not elapsed. *)
Hypothesis Hquery :
  forall j,
    match Exec h j info with
    | (output, None) => Contains output "RUNNING" = false
    | (_, Some _) => snd (Exec h (S j) info) = None
    end.
Hypothesis Hquiet :
  forall k, Since h k < 5 * Second -> WaitLockClosed h k = false.

(** From any round on, the loop runs [n] more rounds of one or two
    queries and one sleep each and is left by the clock reading of
    round [sleeps s + n], the first one at or past the bound. *)
Lemma waitForStart_loop_timeout (fuel : nat) (s : state) :
  (100 - sleeps s < fuel)%nat ->
  exists n,
    (n <= 100 - sleeps s)%nat
    /\ 5 * Second <= Since h (sleeps s + n)
    /\ (forall k, (sleeps s <= k < sleeps s + n)%nat ->
        Since h k < 5 * Second)
    /\ snd (waitForStart_loop fuel h c s) = Next tt
    /\ sleeps (fst (waitForStart_loop fuel h c s)) = (sleeps s + n)%nat
    /\ (execs s + n <= execs (fst (waitForStart_loop fuel h c s))
        <= execs s + 2 * n)%nat.
Proof.
  revert s. induction fuel as [|fuel IH]; intros s Hfuel; [lia |].
  rewrite waitForStart_loop_round. cbn zeta.
  destruct (Since h (sleeps s) <? 5 * Second) eqn:Htime.
  - apply Z.ltb_lt in Htime.
    pose proof (round_before_bound _ Htime) as Hround.
    rewrite (Hquiet _ Htime).
    assert (Hnext : forall s',
              sleeps s' = S (sleeps s) ->
              (execs s + 1 <= execs s' <= execs s + 2)%nat ->
              exists n,
                (n <= 100 - sleeps s)%nat
                /\ 5 * Second <= Since h (sleeps s + n)
                /\ (forall k, (sleeps s <= k < sleeps s + n)%nat ->
                    Since h k < 5 * Second)
                /\ snd (waitForStart_loop fuel h c s') = Next tt
                /\ sleeps (fst (waitForStart_loop fuel h c s'))
                   = (sleeps s + n)%nat
                /\ (execs s + n <= execs (fst (waitForStart_loop fuel h c s'))
                    <= execs s + 2 * n)%nat).
    { intros s' Hsl Hex.
      destruct (IH s') as (n & Hn & Hpast & Hbefore & Hres & Hsleeps & Hexecs);
        [lia |].
      rewrite Hsl in *. exists (S n).
      replace (sleeps s + S n)%nat with (S (sleeps s) + n)%nat by lia.
      repeat split; try assumption; try lia.
      intros k Hk. destruct (decide (k = sleeps s)) as [-> | Hne];
        [assumption | apply Hbefore; lia]. }
    pose proof (Hquery (execs s)) as Hfirst.
    destruct (Exec h (execs s) info) as [out1 [e1|]].
    + pose proof (Hquery (S (execs s))) as Hsecond.
      destruct (Exec h (S (execs s)) info) as [out2 [e2|]];
        [discriminate |].
      rewrite Hsecond. apply Hnext; state_fields; lia.
    + rewrite Hfirst. apply Hnext; state_fields; lia.
  - apply Z.ltb_ge in Htime. exists 0%nat.
    rewrite Nat.add_0_r. cbn [fst snd]. state_fields.
    repeat split; try assumption; try lia.
Qed.

End Timeout.

(** The loop is left without a [return] only by a reading of the clock
    at or past the bound. *)
Lemma waitForStart_loop_leaves (fuel : nat) (s s' : state) :
  waitForStart_loop fuel h c s = (s', Next tt) ->
  5 * Second <= Since h (sleeps s').
Proof.
  revert s. induction fuel as [|fuel IH]; intros s; [discriminate |].
  rewrite waitForStart_loop_round. cbn zeta.
  destruct (Since h (sleeps s) <? 5 * Second) eqn:Htime.
  - repeat match goal with
           | |- context [if ?b then _ else _] => destruct b
           | |- context [match ?r with (_, _) => _ end] => destruct r
           | |- context [match ?o with Some _ => _ | None => _ end] =>
               destruct o
           end; try discriminate; apply IH.
  - intros [= <-]. state_fields. now apply Z.ltb_ge.
Qed.

End StartConfirmation.

(** Two hosts that differ only in clock readings which compare in the
    same way with the bound give the same run. *)
Lemma waitForStart_loop_clock (h h' : Lxc.host) (c : Lxc.Command)
    (fuel : nat) (s : Lxc.state) :
  (forall j argv, Lxc.Exec h' j argv = Lxc.Exec h j argv) ->
  (forall k, Lxc.WaitLockClosed h' k = Lxc.WaitLockClosed h k) ->
  (forall k, (Lxc.Since h' k <? 5 * Lxc.Second)
             = (Lxc.Since h k <? 5 * Lxc.Second)) ->
  Lxc.waitForStart_loop fuel h' c s = Lxc.waitForStart_loop fuel h c s.
Proof.
  intros Hexec Hchan Hclock. revert s.
  induction fuel as [|fuel IH]; intros s; [reflexivity |].
  rewrite !waitForStart_loop_round. cbn zeta.
  rewrite Hclock, Hchan, !Hexec.
  repeat match goal with
         | |- context [if ?b then _ else _] => destruct b
         | |- context [match ?r with (_, _) => _ end] => destruct r
         | |- context [match ?o with Some _ => _ | None => _ end] =>
             destruct o
         end; try reflexivity; apply IH.
Qed.

(** C4.  When no status query fails twice in a row, no successful
    query reports [RUNNING] and the completion signal is not seen in a
    round entered before the bound, [waitForStart] returns
    [ErrNotRunning] and nothing else: it polls for some [n] rounds, at
    most 100, with one or two queries in each, and returns at the first
    reading of the clock that is not below five seconds.  That test is
    the only place where time decides: at or past the bound the result
    is [ErrNotRunning] whatever the channel and the queries say, the
    loop is left without a [return] nowhere else, and clock readings
    that compare in the same way with five seconds give the same
    run. *)
Theorem waitForStart_timeout (h : Lxc.host) (c : Lxc.Command) (fuel : nat)
    (s : Lxc.state) :
  (0 <= Lxc.Since h 0 ->
   (forall k, Lxc.Since h k + 50 * Lxc.Millisecond <= Lxc.Since h (S k)) ->
   (forall j,
      match Lxc.Exec h j ["lxc-info"; "-s"; "-n"; Lxc.ID c] with
      | (output, None) => Go.Contains output "RUNNING" = false
      | (_, Some _) =>
          snd (Lxc.Exec h (S j) ["lxc-info"; "-s"; "-n"; Lxc.ID c]) = None
      end) ->
   (forall k, Lxc.Since h k < 5 * Lxc.Second ->
              Lxc.WaitLockClosed h k = false) ->
   Lxc.sleeps s = 0%nat ->
   (100 < fuel)%nat ->
   exists n,
     (n <= 100)%nat
     /\ 5 * Lxc.Second <= Lxc.Since h n
     /\ (forall k, (k < n)%nat -> Lxc.Since h k < 5 * Lxc.Second)
     /\ snd (Lxc.waitForStart fuel h c s) = Return (Some Lxc.ErrNotRunning)
     /\ Lxc.sleeps (fst (Lxc.waitForStart fuel h c s)) = n
     /\ (Lxc.execs s + n <= Lxc.execs (fst (Lxc.waitForStart fuel h c s))
         <= Lxc.execs s + 2 * n)%nat)
  /\ (5 * Lxc.Second <= Lxc.Since h (Lxc.sleeps s) ->
      Lxc.waitForStart (S fuel) h c s
      = (Lxc.log Lxc.EvSince s, Return (Some Lxc.ErrNotRunning)))
  /\ (forall s',
        Lxc.waitForStart_loop fuel h c s = (s', Next tt) ->
        5 * Lxc.Second <= Lxc.Since h (Lxc.sleeps s'))
  /\ (forall h',
        (forall j argv, Lxc.Exec h' j argv = Lxc.Exec h j argv) ->
        (forall k, Lxc.WaitLockClosed h' k = Lxc.WaitLockClosed h k) ->
        (forall k, (Lxc.Since h' k <? 5 * Lxc.Second)
                   = (Lxc.Since h k <? 5 * Lxc.Second)) ->
        Lxc.waitForStart fuel h' c s = Lxc.waitForStart fuel h c s).
Proof.
  split; [| split; [| split]].
  - intros Hentry Hsleep Hquery Hquiet Hzero Hfuel.
    destruct (waitForStart_loop_timeout h c Hentry Hsleep Hquery Hquiet fuel s)
      as (n & Hn & Hpast & Hbefore & Hres & Hsl & Hex); [lia |].
    rewrite Hzero in *. cbn in Hpast, Hsl.
    exists n. unfold Lxc.waitForStart, bind, return_.
    destruct (Lxc.waitForStart_loop fuel h c s) as [s' r].
    cbn [fst snd] in *. subst r. cbn [fst snd].
    repeat split; try assumption; try lia.
    intros k Hk. apply Hbefore. lia.
  - apply waitForStart_past_bound.
  - apply waitForStart_loop_leaves.
  - intros h' Hexec Hchan Hclock. unfold Lxc.waitForStart, bind.
    rewrite (waitForStart_loop_clock h h' c fuel s Hexec Hchan Hclock).
    reflexivity.
Qed.

(** The container exits at once, or during its second sleep; or the
    round starts too late. *)
Lemma waitForStart_exit_signal_witness :
  let h := Demo.host_with "STOPPED" 0 (Some (inl 256)) EmptyString in
  let h2 := Demo.host_with "STOPPED" 2 (Some (inl 256)) EmptyString in
  let late := Lxc.slept (50 * Lxc.Millisecond) Lxc.initial in
  (Lxc.waitForStart 1 h Demo.plain Lxc.initial
   = (Lxc.log (Lxc.EvSelect true) (Lxc.log Lxc.EvSince Lxc.initial),
      Return None))
  /\ (snd (Lxc.waitForStart 3 h2 Demo.plain Lxc.initial) = Return None
      /\ Lxc.sleeps (fst (Lxc.waitForStart 3 h2 Demo.plain Lxc.initial))
         = (Lxc.sleeps Lxc.initial + 2)%nat
      /\ Lxc.execs (fst (Lxc.waitForStart 3 h2 Demo.plain Lxc.initial))
         = (Lxc.execs Lxc.initial + 2)%nat)
  /\ (Lxc.waitForStart 1
        (Sample.exiting (3 * Lxc.Second) (6 * Lxc.Second)) Demo.plain late
      = (Lxc.log Lxc.EvSince late, Return (Some Lxc.ErrNotRunning)))
  /\ ~ In Lxc.EvExitedCheck
       (Lxc.trace (fst (Lxc.waitForStart 7 h Demo.plain Lxc.initial))).
Proof.
  intros h h2 late. split; [| split; [| split]].
  - apply (proj1 (waitForStart_exit_signal h Demo.plain 0 Lxc.initial));
      reflexivity.
  - apply (proj1 (proj2 (waitForStart_exit_signal h2 Demo.plain 3
                           Lxc.initial)) 2%nat).
    + lia.
    + intros j Hj. destruct j as [|[|j]]; [| | lia];
        (split; [reflexivity | split; [reflexivity |]]);
        exists "STOPPED"; split; reflexivity.
    + reflexivity.
    + reflexivity.
  - apply (proj1 (proj2 (proj2 (waitForStart_exit_signal
                                  (Sample.exiting (3 * Lxc.Second)
                                     (6 * Lxc.Second))
                                  Demo.plain 0 late)))).
    vm_compute. discriminate.
  - apply (proj2 (proj2 (proj2 (waitForStart_exit_signal h Demo.plain 7
                                  Lxc.initial)))).
    cbn. tauto.
Defined.

(** The child exits three seconds after the call, during a first round
    that lasts six seconds: the signal has fired before the bound, it
    is never looked at, and the start is reported as not confirmed. *)
Lemma waitForStart_exit_signal_counterexample :
  let h := Sample.exiting (3 * Lxc.Second) (6 * Lxc.Second) in
  3 * Lxc.Second < 5 * Lxc.Second
  /\ (forall k, Lxc.WaitLockClosed h k = (3 * Lxc.Second <=? Lxc.Since h k))
  /\ Lxc.WaitLockClosed h 0 = false
  /\ Lxc.WaitLockClosed h 1 = true
  /\ Lxc.Since h 0 = 0
  /\ (forall k, Lxc.Since h k + 50 * Lxc.Millisecond <= Lxc.Since h (S k))
  /\ snd (Lxc.waitForStart 101 h Demo.plain Lxc.initial)
     = Return (Some Lxc.ErrNotRunning)
  /\ snd (Lxc.waitForStart 101 h Demo.plain Lxc.initial) <> Return None
  /\ snd (Lxc.Run 101 h Demo.direct Demo.plain true Lxc.initial)
     = Return (-1, Some Lxc.ErrNotRunning).
Proof.
  intros h. repeat split; try reflexivity.
  - intros k. cbn [Lxc.Since h Sample.exiting].
    unfold Lxc.Second, Lxc.Millisecond. lia.
  - vm_compute. discriminate.
Qed.

(** Every round has a failed query and a successful retry that
    reports [STOPPED]; the container never exits: 100 rounds of two
    queries, then the timeout. *)
Lemma waitForStart_timeout_witness :
  let h := Sample.flaky Demo.enoent in
  exists n,
    (n <= 100)%nat
    /\ 5 * Lxc.Second <= Lxc.Since h n
    /\ (forall k, (k < n)%nat -> Lxc.Since h k < 5 * Lxc.Second)
    /\ snd (Lxc.waitForStart 101 h Demo.plain Lxc.initial)
       = Return (Some Lxc.ErrNotRunning)
    /\ Lxc.sleeps (fst (Lxc.waitForStart 101 h Demo.plain Lxc.initial)) = n
    /\ (Lxc.execs Lxc.initial + n
        <= Lxc.execs (fst (Lxc.waitForStart 101 h Demo.plain Lxc.initial))
        <= Lxc.execs Lxc.initial + 2 * n)%nat.
Proof.
  intros h.
  apply (proj1 (waitForStart_timeout h Demo.plain 101 Lxc.initial)).
  - cbn. unfold Lxc.Millisecond. lia.
  - intros k. cbn. unfold Lxc.Millisecond. lia.
  - intros j.
    change (Lxc.Exec h j ["lxc-info"; "-s"; "-n"; Lxc.ID Demo.plain])
      with (if Nat.even j then ("lxc-info: failed", Some Demo.enoent)
            else ("STOPPED", @None Lxc.error)).
    change (Lxc.Exec h (S j) ["lxc-info"; "-s"; "-n"; Lxc.ID Demo.plain])
      with (if Nat.even (S j) then ("lxc-info: failed", Some Demo.enoent)
            else ("STOPPED", @None Lxc.error)).
    rewrite Nat.even_succ, <- Nat.negb_even.
    destruct (Nat.even j); reflexivity.
  - intros k.
    change (Lxc.Since h k) with (50 * Lxc.Millisecond * Z.of_nat k).
    change (Lxc.WaitLockClosed h k) with (1000 <=? k)%nat.
    unfold Lxc.Second, Lxc.Millisecond. intros Hk.
    apply Nat.leb_gt. lia.
  - reflexivity.
  - lia.
Defined.

(** Every query fails with an output that does not hold [RUNNING],
    and the channel stays open: the result is the error of the query,
    not [ErrNotRunning]. *)
Lemma waitForStart_timeout_counterexample :
  let h := Demo.broken (Lxc.ExitError 256) in
  (forall j argv, Go.Contains (fst (Lxc.Exec h j argv)) "RUNNING" = false)
  /\ (forall k, Lxc.Since h k < 5 * Lxc.Second ->
                Lxc.WaitLockClosed h k = false)
  /\ snd (Lxc.waitForStart 101 h Demo.plain Lxc.initial)
     = Return (Some (Lxc.ExitError 256))
  /\ snd (Lxc.waitForStart 101 h Demo.plain Lxc.initial)
     <> Return (Some Lxc.ErrNotRunning).
Proof.
  intros h. repeat split; try reflexivity.
  - intros k.
    change (Lxc.Since h k) with (50 * Lxc.Millisecond * Z.of_nat k).
    change (Lxc.WaitLockClosed h k) with (1000 <=? k)%nat.
    unfold Lxc.Second, Lxc.Millisecond. intros Hk.
    apply Nat.leb_gt. lia.
  - vm_compute. discriminate.
Qed.

Example timeout_after_100_rounds :
  let h := Demo.host_with "STOPPED" 1000 None EmptyString in
  snd (Lxc.waitForStart 101 h Demo.plain Lxc.initial)
  = Return (Some Lxc.ErrNotRunning)
  /\ Lxc.sleeps (fst (Lxc.waitForStart 101 h Demo.plain Lxc.initial)) = 100%nat
  /\ snd (Lxc.waitForStart 100 h Demo.plain Lxc.initial) = Stuck.
Proof. vm_compute. repeat split. Qed.

(** Both status queries of the first round fail. *)
Lemma waitForStart_retry_once_witness :
  let h := Demo.broken (Lxc.ExitError 256) in
  let info := ["lxc-info"; "-s"; "-n"; "c0ffee"] in
  Lxc.waitForStart 3 h Demo.plain Lxc.initial
  = (Lxc.ran info
       (Lxc.ran info
          (Lxc.log (Lxc.EvSelect false) (Lxc.log Lxc.EvSince Lxc.initial))),
     Return (Some (Lxc.ExitError 256))).
Proof.
  intros h info.
  apply (waitForStart_retry_once h Demo.plain 2 Lxc.initial
           "sh: not found" (Lxc.ExitError 256)); reflexivity.
Defined.

(** ** Signals *)

Section Signals.
Import Go Lxc.
Context `{ErrorText}.

(** C9.  [Kill] runs exactly one command: [lxc-kill -n ID sig] when
    [lxc-kill] is found on the host, [lxc-stop -k -n ID sig]
    otherwise.  When that command fails, as it does when the tool
    exits with a non-zero status, [Kill] returns an error whose text
    holds the text of the command's error and the combined output of
    the command; it returns nil otherwise. *)
Theorem Kill_tool_and_result (h : host) (c : Command) (sig : Z) (s : state) :
  let argv :=
    match LookPath h "lxc-kill" with
    | inl _ => ["lxc-kill"; "-n"; ID c; Itoa sig]
    | inr _ => ["lxc-stop"; "-k"; "-n"; ID c; Itoa sig]
    end in
  Kill h c sig s
  = (ran argv s,
     Return
       match Exec h (execs s) argv with
       | (output, Some err) =>
           Some (errorString
                   ("Err: " +:+ Error err +:+ " Output: " +:+ output))
       | (_, None) => None
       end)
  /\ forall status output,
      Exec h (execs s) argv = (output, Some (ExitError status)) ->
      snd (Kill h c sig s)
      = Return (Some (errorString
                        ("Err: " +:+ ExitError_text status
                         +:+ " Output: " +:+ output))).
Proof.
  intros argv.
  assert (Hkill : Kill h c sig s
    = (ran argv s,
       Return
         match Exec h (execs s) argv with
         | (output, Some err) =>
             Some (errorString
                     ("Err: " +:+ Error err +:+ " Output: " +:+ output))
         | (_, None) => None
         end)).
  { subst argv. unfold Kill, kill, call, bind, CombinedOutput, return_.
    destruct (LookPath h "lxc-kill") as [found | missing];
      match goal with
      | |- context [Exec h (execs s) ?a] =>
          destruct (Exec h (execs s) a) as [output [err|]]
      end; reflexivity. }
  split; [exact Hkill |].
  intros status output Hexit. rewrite Hkill, Hexit. reflexivity.
Qed.

End Signals.

(** [lxc-kill] is missing and [lxc-stop] exits with status 1. *)
Lemma Kill_tool_and_result_witness :
  let h := Demo.broken (Lxc.ExitError 256) in
  Lxc.Kill (H := Demo.text) h Demo.plain 15 Lxc.initial
  = (Lxc.ran ["lxc-stop"; "-k"; "-n"; "c0ffee"; "15"] Lxc.initial,
     Return (Some (Lxc.errorString
                     "Err: exit status 1 Output: sh: not found")))
  /\ snd (Lxc.Kill (H := Demo.text) h Demo.plain 15 Lxc.initial)
     = Return (Some (Lxc.errorString
                       "Err: exit status 1 Output: sh: not found")).
Proof.
  intros h. split.
  - exact (proj1 (Kill_tool_and_result (H := Demo.text) h Demo.plain 15
                    Lxc.initial)).
  - apply (proj2 (Kill_tool_and_result (H := Demo.text) h Demo.plain 15
                    Lxc.initial) 256 "sh: not found").
    reflexivity.
Defined.

Example Kill_primary :
  snd (Lxc.Kill (H := Demo.text)
         (Demo.host_with "STOPPED" 0 None EmptyString) Demo.plain 9 Lxc.initial)
  = Return None
  /\ Lxc.trace
       (fst (Lxc.Kill (H := Demo.text)
               (Demo.host_with "STOPPED" 0 None EmptyString) Demo.plain 9
               Lxc.initial))
     = [Lxc.EvExec ["lxc-kill"; "-n"; "c0ffee"; "9"]].
Proof. split; reflexivity. Qed.

(** ** Shared root detection *)

(** C10.  A line of the mount table with exactly six fields whose fifth
    field is a slash passes the length test of [rootIsShared] and makes
    it read the seventh field: the index is out of range and the
    function panics instead of returning a boolean. *)
Theorem rootIsShared_index_out_of_range :
  Lxc.rootIsShared (Demo.mounted "1 2 3 4 / 6") = Lxc.Panic.
Proof. reflexivity. Qed.

Example rootIsShared_samples :
  length (Go.Split " " "1 2 3 4 / 6") = 6%nat
  /\ Lxc.rootIsShared
       (Demo.mounted "25 0 8:1 / / rw,relatime shared:1 - ext4 /dev/sda1 rw")
     = Lxc.Value true
  /\ Lxc.rootIsShared
       (Demo.mounted "25 0 8:1 / / rw,relatime - ext4 /dev/sda1 rw")
     = Lxc.Value false
  /\ Lxc.rootIsShared (Demo.mounted "1 2 3 4 /") = Lxc.Value true
  /\ Lxc.rootIsShared (Demo.broken Demo.enoent) = Lxc.Value true.
Proof. repeat split. Qed.

(** ** PIDs of a container *)

Section Pids.
Import Go Lxc.
Context `{ErrorText}.

(** The PID a line of the tasks file stands for, if any.  An empty
    line stands for none. *)
Let pid_of (line : string) : option Z :=
  match Atoi line with
  | inl pid => Some pid
  | inr _ => None
  end.

(** A line the loop accepts: empty, or a decimal integer. *)
Let accepted (line : string) : Prop :=
  line = EmptyString \/ exists pid, Atoi line = inl pid.

Lemma GetPidsForContainer_lines_ok (lines : list string) (pids : list Z) :
  Forall accepted lines ->
  GetPidsForContainer_lines lines pids = (pids ++ omap pid_of lines, None).
Proof.
  intros Hall. revert pids.
  induction Hall as [|line lines Hline _ IH]; intros pids.
  - cbn. now rewrite app_nil_r.
  - cbn [GetPidsForContainer_lines omap list_omap]. unfold pid_of at 1.
    destruct Hline as [-> | [pid Hpid]].
    + cbn. apply IH.
    + rewrite Hpid. destruct line as [|a line]; [discriminate |].
      cbn [String.length Nat.eqb]. rewrite IH.
      now rewrite <- app_assoc.
Qed.

Lemma GetPidsForContainer_lines_bad (pre post : list string) (p : string)
    (e : NumErr) (pids : list Z) :
  Forall accepted pre ->
  p <> EmptyString ->
  Atoi p = inr e ->
  GetPidsForContainer_lines (pre ++ p :: post) pids
  = (pids ++ omap pid_of pre,
     Some (errorString
             ("Invalid pid '" +:+ p +:+ "': " +:+ NumError_text p e))).
Proof.
  intros Hall Hp He. revert pids.
  induction Hall as [|line lines Hline _ IH]; intros pids.
  - cbn [app GetPidsForContainer_lines omap list_omap].
    destruct p as [|a p]; [contradiction |].
    cbn [String.length Nat.eqb]. rewrite He, app_nil_r. reflexivity.
  - cbn [app GetPidsForContainer_lines omap list_omap]. unfold pid_of at 1.
    destruct Hline as [-> | [pid Hpid]].
    + cbn. apply IH.
    + rewrite Hpid. destruct line as [|a line]; [discriminate |].
      cbn [String.length Nat.eqb]. rewrite IH.
      now rewrite <- app_assoc.
Qed.

(** The whole function once both resolutions succeed: one [Stat] of
    the first path, one read of the path chosen, and the lines of
    that file. *)
Lemma GetPidsForContainer_resolved (h : host) (id : string) (s : state)
    (mnt dir : string) :
  FindCgroupMountpoint h "memory" = inl mnt ->
  GetThisCgroupDir h "memory" = inl dir ->
  let first := Join [mnt; dir; id; "tasks"] in
  let filename :=
    if IsNotExist (Stat h first) then Join [mnt; dir; "lxc"; id; "tasks"]
    else first in
  GetPidsForContainer h id s
  = (log (EvReadFile filename) (log (EvStat first) s),
     Return match ReadFile h filename with
            | inl output => GetPidsForContainer_lines (Split "010" output) []
            | inr err => ([], Some err)
            end).
Proof.
  intros Hmnt Hdir first filename. subst first filename.
  unfold GetPidsForContainer. rewrite Hmnt, Hdir.
  unfold bind, os_Stat, ioutil_ReadFile, bind, emit, ret, return_.
  cbn beta iota zeta.
  destruct (IsNotExist (Stat h (Join [mnt; dir; id; "tasks"])));
    match goal with
    | |- context [ReadFile h ?f] => destruct (ReadFile h f)
    end; reflexivity.
Qed.

(** C7.  The tasks file is read as lines separated by line feeds;
    empty lines are skipped and every other line must be a decimal
    integer.  When all lines are accepted the PIDs come back in order
    with no error; at the first line that is not accepted the function
    returns an error whose text quotes that line.  The file made of
    the lines 123 and 456 and an empty line gives the list 123, 456;
    the file made of the lines 123 and abc gives an error quoting
    abc. *)
Theorem GetPidsForContainer_parse (h : host) (id : string) (s : state)
    (mnt dir content : string) :
  FindCgroupMountpoint h "memory" = inl mnt ->
  GetThisCgroupDir h "memory" = inl dir ->
  ReadFile h
    (if IsNotExist (Stat h (Join [mnt; dir; id; "tasks"]))
     then Join [mnt; dir; "lxc"; id; "tasks"]
     else Join [mnt; dir; id; "tasks"]) = inl content ->
  let lines := Split "010" content in
  let result := snd (GetPidsForContainer h id s) in
  (Forall accepted lines -> result = Return (omap pid_of lines, None))
  /\ (forall pre p post e,
        lines = pre ++ p :: post ->
        Forall accepted pre -> p <> EmptyString -> Atoi p = inr e ->
        result
        = Return (omap pid_of pre,
                  Some (errorString
                          ("Invalid pid '" +:+ p +:+ "': "
                           +:+ NumError_text p e))))
  /\ (content = "123" +:+ Demo.nl +:+ "456" +:+ Demo.nl +:+ Demo.nl ->
      result = Return ([123; 456], None))
  /\ (content = "123" +:+ Demo.nl +:+ "abc" +:+ Demo.nl ->
      result
      = Return ([123],
                Some (errorString
                        ("Invalid pid 'abc': "
                         +:+ NumError_text "abc" ErrSyntax)))).
Proof.
  intros Hmnt Hdir Hread lines result. subst lines result.
  rewrite (GetPidsForContainer_resolved h id s mnt dir Hmnt Hdir).
  cbn [snd]. rewrite Hread.
  split; [| split; [| split]].
  - intros Hall. now rewrite GetPidsForContainer_lines_ok.
  - intros pre p post e -> Hpre Hp He.
    now rewrite (GetPidsForContainer_lines_bad pre post p e).
  - intros ->. reflexivity.
  - intros ->. reflexivity.
Qed.

(** C8.  A failure to find the cgroup mount point or the cgroup
    directory of the daemon is returned as it is, with an empty list
    and without touching the file system.  Otherwise the function
    looks at [mountpoint/cgroupDir/ID/tasks] and reads that file,
    unless [Stat] reports that it does not exist, in which case it
    reads [mountpoint/cgroupDir/lxc/ID/tasks] instead. *)
Theorem GetPidsForContainer_paths (h : host) (id : string) (s : state) :
  match FindCgroupMountpoint h "memory", GetThisCgroupDir h "memory" with
  | inr err, _ => GetPidsForContainer h id s = (s, Return ([], Some err))
  | inl _, inr err => GetPidsForContainer h id s = (s, Return ([], Some err))
  | inl mnt, inl dir =>
      trace (fst (GetPidsForContainer h id s))
      = trace s
        ++ [EvStat (Join [mnt; dir; id; "tasks"]);
            EvReadFile
              (if IsNotExist (Stat h (Join [mnt; dir; id; "tasks"]))
               then Join [mnt; dir; "lxc"; id; "tasks"]
               else Join [mnt; dir; id; "tasks"])]
  end.
Proof.
  destruct (FindCgroupMountpoint h "memory") as [mnt | err] eqn:Hmnt.
  - destruct (GetThisCgroupDir h "memory") as [dir | err] eqn:Hdir.
    + rewrite (GetPidsForContainer_resolved h id s mnt dir Hmnt Hdir).
      cbn [fst]. rewrite !trace_log, <- app_assoc. reflexivity.
    + unfold GetPidsForContainer. now rewrite Hmnt, Hdir.
  - unfold GetPidsForContainer. now rewrite Hmnt.
Qed.

End Pids.

(** The tasks file of the container holds 123, 456 and an empty line. *)
Lemma GetPidsForContainer_parse_witness :
  snd (Lxc.GetPidsForContainer (H := Demo.text)
         (Demo.host_with "RUNNING" 1000 None Demo.tasks_ok) "c0ffee"
         Lxc.initial)
  = Return ([123; 456], None).
Proof.
  apply (GetPidsForContainer_parse (H := Demo.text)
           (Demo.host_with "RUNNING" 1000 None Demo.tasks_ok) "c0ffee"
           Lxc.initial "/sys/fs/cgroup/memory" "/" Demo.tasks_ok);
    reflexivity.
Defined.

Example GetPidsForContainer_bad_line :
  snd (Lxc.GetPidsForContainer (H := Demo.text)
         (Demo.host_with "RUNNING" 1000 None Demo.tasks_bad) "c0ffee"
         Lxc.initial)
  = Return ([123], Some (Lxc.errorString
                           "Invalid pid 'abc': parsing abc: invalid syntax"))
  /\ Lxc.trace
       (fst (Lxc.GetPidsForContainer (H := Demo.text)
               (Demo.host_with "RUNNING" 1000 None Demo.tasks_bad) "c0ffee"
               Lxc.initial))
     = [Lxc.EvStat "/sys/fs/cgroup/memory/c0ffee/tasks";
        Lxc.EvReadFile "/sys/fs/cgroup/memory/lxc/c0ffee/tasks"]
  /\ Lxc.GetPidsForContainer (H := Demo.text) (Demo.broken Demo.enoent)
       "c0ffee" Lxc.initial
     = (Lxc.initial, Return ([], Some Demo.enoent)).
Proof. repeat split. Qed.

(** ** Exit of the container process *)

Section Supervision.
Import Go Lxc.

Variable h : host.
Variable c : Command.

(** The start-confirmation loop does not touch the variable
    [waitErr] of [Run]. *)
Lemma waitForStart_loop_waitErr (fuel : nat) (s : state) :
  waitErr (fst (waitForStart_loop fuel h c s)) = waitErr s.
Proof.
  revert s. induction fuel as [|fuel IH]; intros s; [reflexivity |].
  rewrite waitForStart_loop_round. cbn zeta.
  repeat match goal with
         | |- context [if ?b then _ else _] => destruct b
         | |- context [match ?r with (_, _) => _ end] => destruct r
         | |- context [match ?o with Some _ => _ | None => _ end] =>
             destruct o
         end;
    try rewrite IH; reflexivity.
Qed.

Lemma waitForStart_waitErr (fuel : nat) (s : state) :
  waitErr (fst (waitForStart fuel h c s)) = waitErr s.
Proof.
  unfold waitForStart, bind, return_.
  pose proof (waitForStart_loop_waitErr fuel s) as Hloop.
  destruct (waitForStart_loop fuel h c s) as [s' [[]|r|]]; exact Hloop.
Qed.

(** The goroutine, once the child has been waited for. *)
Lemma exit_watcher_done (r : WaitStatus + error) (s : state) :
  ProcessWait h = Some r ->
  exit_watcher h s
  = (log EvClose
       (match r with
        | inl status =>
            if Success status
            then match CopyError h with
                 | Some e => if is_ExitError e then fun s => s
                             else with_waitErr (Some e)
                 | None => fun s => s
                 end
            else fun s => s
        | inr e => if is_ExitError e then fun s => s
                   else with_waitErr (Some e)
        end
          (with_ProcessState
             (match r with inl status => Some status | inr _ => None end)
             (log EvWait s))),
     Next tt).
Proof.
  intros Hwait.
  unfold exit_watcher, Cmd_Wait, bind, emit, set_ProcessState, set_waitErr,
    ret. cbn beta iota zeta. rewrite Hwait.
  destruct r as [status | e].
  - destruct (Success status); [destruct (CopyError h) as [e|] |];
      cbn beta iota zeta; try destruct (is_ExitError e); reflexivity.
  - cbn beta iota zeta. destruct (is_ExitError e); reflexivity.
Qed.


(** A failure of the wait itself is what the goroutine records. *)
Lemma exit_watcher_wait_failure (e : error) (s : state) :
  ProcessWait h = Some (inr e) ->
  is_ExitError e = false ->
  exit_watcher h s
  = (log EvClose
       (with_waitErr (Some e) (with_ProcessState None (log EvWait s))),
     Next tt).
Proof.
  intros Hwait He.
  rewrite (exit_watcher_done (inr e) s Hwait), He. reflexivity.
Qed.

End Supervision.


Example Run_trace :
  Lxc.trace
    (fst (Lxc.Run 1 (Demo.host_with "RUNNING" 1000 (Some (inl 256)) EmptyString)
            Demo.direct Demo.plain true Lxc.initial))
  = [Lxc.EvCreate "/var/lib/docker/containers/c0ffee/config.lxc";
     Lxc.EvExecute "/var/lib/docker/containers/c0ffee/config.lxc";
     Lxc.EvFileClose "/var/lib/docker/containers/c0ffee/config.lxc";
     Lxc.EvStart "/usr/bin/lxc-start"
       ["lxc-start"; "-n"; "c0ffee"; "-f";
        "/var/lib/docker/containers/c0ffee/config.lxc"; "--"; "/.dockerinit";
        "-driver"; "lxc"; "--"; "/bin/true"];
     Lxc.EvSince; Lxc.EvSelect false;
     Lxc.EvExec ["lxc-info"; "-s"; "-n"; "c0ffee"];
     Lxc.EvCallback; Lxc.EvWait; Lxc.EvClose].
Proof. reflexivity. Qed.

Example Run_outcomes :
  (* killed by signal 9 *)
  snd (Lxc.Run 1 (Demo.host_with "RUNNING" 1000 (Some (inl 9)) EmptyString)
         Demo.direct Demo.plain false Lxc.initial)
  = Return (-1, None)
  (* the wait itself fails *)
  /\ snd (Lxc.Run 1
            (Demo.host_with "RUNNING" 1000 (Some (inr Demo.enoent)) EmptyString)
            Demo.direct Demo.plain false Lxc.initial)
     = Return (-1, Some Demo.enoent)
  (* the child never exits *)
  /\ snd (Lxc.Run 1 (Demo.host_with "RUNNING" 1000 None EmptyString)
            Demo.direct Demo.plain false Lxc.initial)
     = Stuck
  (* the start is never confirmed *)
  /\ snd (Lxc.Run 101 (Demo.host_with "STOPPED" 1000 (Some (inl 0)) EmptyString)
            Demo.direct Demo.plain false Lxc.initial)
     = Return (-1, Some Lxc.ErrNotRunning).
Proof. vm_compute. repeat split. Qed.

(** ** Restore *)

Section Restoring.
Import Go Lxc Query.

Variable h : host.
Variable c : Command.

(** The query [Restore] polls with. *)
Let query : list string := ["lxc-info"; "-n"; ID c].

Lemma Restore_round (fuel : nat) (s : state) :
  Restore (S fuel) h c s
  = match Exec h (execs s) query with
    | (_, Some err) => (ran query s, Return (Some err))
    | (output, None) =>
        if Contains output "RUNNING"
        then Restore fuel h c (slept (500 * Millisecond) (ran query s))
        else (ran query s, Return None)
    end.
Proof.
  cbn [Restore]. unfold bind, CombinedOutput, time_Sleep, return_.
  fold query. destruct (Exec h (execs s) query) as [output [err|]];
    [reflexivity |].
  destruct (Contains output "RUNNING"); reflexivity.
Qed.

(** X1.  [Restore] returns at the first query that fails or whose
    output does not hold [RUNNING], with the error of that query (nil
    when it succeeded): a failed query is not retried.  Before it, each
    query is followed by a sleep of 500 ms. *)
Theorem Restore_first_stop (k fuel : nat) (s : state) (output : string)
    (err : option error) :
  (k < fuel)%nat ->
  (forall j, (j < k)%nat ->
     exists out, Exec h (execs s + j) query = (out, None)
                 /\ Contains out "RUNNING" = true) ->
  Exec h (execs s + k) query = (output, err) ->
  (err = None -> Contains output "RUNNING" = false) ->
  snd (Restore fuel h c s) = Return err
  /\ trace (fst (Restore fuel h c s))
     = trace s
       ++ concat (replicate k [EvExec query; EvSleep (500 * Millisecond)])
       ++ [EvExec query]
  /\ execs (fst (Restore fuel h c s)) = (execs s + k + 1)%nat.
Proof.
  revert fuel s. induction k as [|k IH]; intros fuel s Hfuel Hrun Hlast Hstop.
  - destruct fuel as [|fuel]; [lia |].
    rewrite Restore_round. rewrite Nat.add_0_r in Hlast. rewrite Hlast.
    destruct err as [e|].
    + cbn [fst snd concat replicate app]. state_fields.
      repeat split. lia.
    + rewrite (Hstop eq_refl). cbn [fst snd concat replicate app].
      state_fields. repeat split. lia.
  - destruct fuel as [|fuel]; [lia |].
    rewrite Restore_round.
    destruct (Hrun 0%nat) as (out & Hout & Hcontains); [lia |].
    rewrite Nat.add_0_r in Hout. rewrite Hout, Hcontains.
    set (s' := slept _ _).
    destruct (IH fuel s') as (Hres & Htrace & Hexecs).
    + lia.
    + intros j Hj. destruct (Hrun (S j)) as (out' & Hout' & Hc'); [lia |].
      exists out'. subst s'. state_fields.
      replace (S (execs s) + j)%nat with (execs s + S j)%nat by lia.
      split; assumption.
    + subst s'. state_fields.
      replace (S (execs s) + k)%nat with (execs s + S k)%nat by lia.
      exact Hlast.
    + exact Hstop.
    + rewrite Hres, Htrace, Hexecs. subst s'. state_fields.
      repeat split; [| lia].
      cbn [replicate concat]. rewrite <- !app_assoc. reflexivity.
Qed.

(** X2.  [Restore] has no timeout: as long as every query succeeds and
    reports [RUNNING] it keeps polling, one sleep per query, and does
    not return. *)
Theorem Restore_while_running (fuel : nat) (s : state) :
  (forall j, exists out, Exec h (execs s + j) query = (out, None)
                         /\ Contains out "RUNNING" = true) ->
  snd (Restore fuel h c s) = Stuck
  /\ execs (fst (Restore fuel h c s)) = (execs s + fuel)%nat
  /\ sleeps (fst (Restore fuel h c s)) = (sleeps s + fuel)%nat.
Proof.
  revert s. induction fuel as [|fuel IH]; intros s Hrun.
  - cbn. repeat split; lia.
  - rewrite Restore_round.
    destruct (Hrun 0%nat) as (out & Hout & Hcontains).
    rewrite Nat.add_0_r in Hout. rewrite Hout, Hcontains.
    set (s' := slept _ _).
    destruct (IH s') as (Hres & Hexecs & Hsleeps).
    + intros j. destruct (Hrun (S j)) as (out' & Hout' & Hc').
      exists out'. subst s'. state_fields.
      replace (S (execs s) + j)%nat with (execs s + S j)%nat by lia.
      split; assumption.
    + rewrite Hres, Hexecs, Hsleeps. subst s'. state_fields.
      repeat split; lia.
Qed.

End Restoring.


(** Two queries report [RUNNING], the third one [STOPPED]. *)
Lemma Restore_first_stop_witness :
  let query := ["lxc-info"; "-n"; "c0ffee"] in
  let h := Sample.turning 2 "RUNNING" "STOPPED" in
  snd (Query.Restore 5 h Demo.plain Lxc.initial) = Return None
  /\ Lxc.trace (fst (Query.Restore 5 h Demo.plain Lxc.initial))
     = Lxc.trace Lxc.initial
       ++ concat (replicate 2 [Lxc.EvExec query;
                               Lxc.EvSleep (500 * Lxc.Millisecond)])
       ++ [Lxc.EvExec query]
  /\ Lxc.execs (fst (Query.Restore 5 h Demo.plain Lxc.initial)) = 3%nat.
Proof.
  intros query h.
  apply (Restore_first_stop h Demo.plain 2 5 Lxc.initial "STOPPED" None).
  - lia.
  - intros j Hj. exists "RUNNING".
    destruct j as [|[|j]]; [split; reflexivity .. | lia].
  - reflexivity.
  - reflexivity.
Defined.

Lemma Restore_while_running_witness :
  let h := Demo.host_with "RUNNING" 0 None EmptyString in
  snd (Query.Restore 7 h Demo.plain Lxc.initial) = Stuck
  /\ Lxc.execs (fst (Query.Restore 7 h Demo.plain Lxc.initial)) = 7%nat
  /\ Lxc.sleeps (fst (Query.Restore 7 h Demo.plain Lxc.initial)) = 7%nat.
Proof.
  intros h. apply (Restore_while_running h Demo.plain 7 Lxc.initial).
  intros j. exists "RUNNING". split; reflexivity.
Defined.

Example Restore_error :
  Query.Restore 9 (Sample.failing 1 Demo.enoent) Demo.plain Lxc.initial
  = (Lxc.ran ["lxc-info"; "-n"; "c0ffee"]
       (Lxc.slept (500 * Lxc.Millisecond)
          (Lxc.ran ["lxc-info"; "-n"; "c0ffee"] Lxc.initial)),
     Return (Some Demo.enoent)).
Proof. reflexivity. Qed.

(** ** More on start confirmation *)

Section Confirmation.
Import Go Lxc Query.

Variable h : host.
Variable c : Command.

Let info : list string := ["lxc-info"; "-s"; "-n"; ID c].

(** X3.  After [k] rounds in which the query succeeds without
    [RUNNING], a round whose first query reports [RUNNING] makes
    [waitForStart] return nil at once: [k] sleeps and [k + 1] queries
    in all. *)
Theorem waitForStart_confirmed (k fuel : nat) (s : state) (output : string) :
  (k < fuel)%nat ->
  (forall j, (j <= k)%nat ->
     Since h (sleeps s + j) < 5 * Second
     /\ WaitLockClosed h (sleeps s + j) = false) ->
  (forall j, (j < k)%nat ->
     exists out, Exec h (execs s + j) info = (out, None)
                 /\ Contains out "RUNNING" = false) ->
  Exec h (execs s + k) info = (output, None) ->
  Contains output "RUNNING" = true ->
  snd (waitForStart fuel h c s) = Return None
  /\ sleeps (fst (waitForStart fuel h c s)) = (sleeps s + k)%nat
  /\ execs (fst (waitForStart fuel h c s)) = (execs s + k + 1)%nat.
Proof.
  unfold waitForStart, bind.
  revert fuel s. induction k as [|k IH];
    intros fuel s Hfuel Hquiet Hidle Hlast Hrunning;
    (destruct fuel as [|fuel]; [lia |]);
    rewrite waitForStart_loop_round; cbn zeta;
    destruct (Hquiet 0%nat) as [Htime Hopen]; try lia;
    rewrite Nat.add_0_r in Htime, Hopen;
    apply Z.ltb_lt in Htime; rewrite Htime, Hopen; fold info.
  - rewrite Nat.add_0_r in Hlast. rewrite Hlast, Hrunning.
    cbn [fst snd]. state_fields. repeat split; lia.
  - destruct (Hidle 0%nat) as (out & Hout & Hnot); [lia |].
    rewrite Nat.add_0_r in Hout. rewrite Hout, Hnot.
    set (s' := slept _ _).
    assert (Hsl : sleeps s' = S (sleeps s)) by reflexivity.
    assert (Hex : execs s' = S (execs s)) by reflexivity.
    specialize (IH fuel s'). rewrite Hsl, Hex in IH.
    destruct IH as (Hres & Hsleeps & Hexecs).
    + lia.
    + intros j Hj. replace (S (sleeps s) + j)%nat
        with (sleeps s + S j)%nat by lia. apply Hquiet. lia.
    + intros j Hj. replace (S (execs s) + j)%nat
        with (execs s + S j)%nat by lia. apply Hidle. lia.
    + replace (S (execs s) + k)%nat with (execs s + S k)%nat by lia.
      exact Hlast.
    + exact Hrunning.
    + destruct (waitForStart_loop fuel h c s') as [s1 [[]|r|]];
        cbn [fst snd] in *; try discriminate.
      repeat split; [exact Hres | lia | lia].
Qed.

(** However the host answers, the loop ends within the rounds that
    start before the bound, with at most two queries in each. *)
Lemma waitForStart_loop_bounded (fuel : nat) (s : state) :
  0 <= Since h 0 ->
  (forall k, Since h k + 50 * Millisecond <= Since h (S k)) ->
  (100 - sleeps s < fuel)%nat ->
  snd (waitForStart_loop fuel h c s) <> Stuck
  /\ (sleeps (fst (waitForStart_loop fuel h c s)) <= Nat.max 100 (sleeps s))%nat
  /\ (execs (fst (waitForStart_loop fuel h c s))
      <= execs s + 2 * (100 - sleeps s))%nat.
Proof.
  intros Hentry Hsleep. revert s.
  induction fuel as [|fuel IH]; intros s Hfuel; [lia |].
  rewrite waitForStart_loop_round. cbn zeta.
  destruct (Since h (sleeps s) <? 5 * Second) eqn:Htime.
  - apply Z.ltb_lt in Htime.
    pose proof (round_before_bound h Hentry Hsleep _ Htime) as Hround.
    assert (Hnext : forall s', sleeps s' = S (sleeps s) ->
              (execs s' <= execs s + 2)%nat ->
              snd (waitForStart_loop fuel h c s') <> Stuck
              /\ (sleeps (fst (waitForStart_loop fuel h c s'))
                  <= Nat.max 100 (sleeps s))%nat
              /\ (execs (fst (waitForStart_loop fuel h c s'))
                  <= execs s + 2 * (100 - sleeps s))%nat).
    { intros s' Hsl Hex. destruct (IH s') as (Hres & Hsleeps & Hexecs);
        [lia |]. rewrite Hsl in *. repeat split; [exact Hres | lia | lia]. }
    destruct (WaitLockClosed h (sleeps s)).
    { cbn [fst snd]. state_fields. repeat split; [discriminate | lia | lia]. }
    fold info.
    destruct (Exec h (execs s) info) as [out1 [e1|]].
    + destruct (Exec h (S (execs s)) info) as [out2 [e2|]].
      * cbn [fst snd]. state_fields.
        repeat split; [discriminate | lia | lia].
      * destruct (Contains out2 "RUNNING").
        -- cbn [fst snd]. state_fields.
           repeat split; [discriminate | lia | lia].
        -- apply Hnext; state_fields; lia.
    + destruct (Contains out1 "RUNNING").
      * cbn [fst snd]. state_fields.
        repeat split; [discriminate | lia | lia].
      * apply Hnext; state_fields; lia.
  - cbn [fst snd]. state_fields. repeat split; [discriminate | lia | lia].
Qed.

(** X4.  When every sleep lasts at least its 50 ms, [waitForStart]
    returns whatever the host answers: it sleeps at most 100 times and
    runs at most 200 status queries. *)
Theorem waitForStart_bounded (fuel : nat) (s : state) :
  0 <= Since h 0 ->
  (forall k, Since h k + 50 * Millisecond <= Since h (S k)) ->
  sleeps s = 0%nat ->
  (100 < fuel)%nat ->
  (exists err, snd (waitForStart fuel h c s) = Return err)
  /\ (sleeps (fst (waitForStart fuel h c s)) <= 100)%nat
  /\ (execs (fst (waitForStart fuel h c s)) <= execs s + 200)%nat.
Proof.
  intros Hentry Hsleep Hzero Hfuel.
  destruct (waitForStart_loop_bounded fuel s Hentry Hsleep)
    as (Hres & Hsleeps & Hexecs); [lia |].
  rewrite Hzero in *. unfold waitForStart, bind, return_.
  destruct (waitForStart_loop fuel h c s) as [s1 [[]|r|]];
    cbn [fst snd] in *; [| | contradiction];
    (split; [eexists; reflexivity | split; lia]).
Qed.

End Confirmation.

(** The third query is the first to report [RUNNING]. *)
Lemma waitForStart_confirmed_witness :
  let h := Sample.turning 2 "STARTING" "RUNNING" in
  snd (Lxc.waitForStart 3 h Demo.plain Lxc.initial) = Return None
  /\ Lxc.sleeps (fst (Lxc.waitForStart 3 h Demo.plain Lxc.initial)) = 2%nat
  /\ Lxc.execs (fst (Lxc.waitForStart 3 h Demo.plain Lxc.initial)) = 3%nat.
Proof.
  intros h.
  apply (waitForStart_confirmed h Demo.plain 2 3 Lxc.initial "RUNNING").
  - lia.
  - intros j Hj. destruct j as [|[|[|j]]]; [split; reflexivity .. | lia].
  - intros j Hj. exists "STARTING".
    destruct j as [|[|j]]; [split; reflexivity .. | lia].
  - reflexivity.
  - reflexivity.
Defined.

(** Every query fails: the first round returns. *)
Lemma waitForStart_bounded_witness :
  let h := Sample.failing 0 Demo.enoent in
  (exists err,
     snd (Lxc.waitForStart 101 h Demo.plain Lxc.initial) = Return err)
  /\ (Lxc.sleeps (fst (Lxc.waitForStart 101 h Demo.plain Lxc.initial))
      <= 100)%nat
  /\ (Lxc.execs (fst (Lxc.waitForStart 101 h Demo.plain Lxc.initial))
      <= Lxc.execs Lxc.initial + 200)%nat.
Proof.
  intros h. apply (waitForStart_bounded h Demo.plain 101 Lxc.initial).
  - cbn. unfold Lxc.Millisecond. lia.
  - intros k. cbn. unfold Lxc.Millisecond. lia.
  - reflexivity.
  - lia.
Defined.

(** ** More on shared root detection *)

Section MountTable.
Import Go Lxc.

(** A line that the loop of [rootIsShared] stops at: at least six
    fields, the fifth being a slash. *)
Let root_line (line : string) : Prop :=
  (6 <= length (Split " " line))%nat /\ Split " " line !! 4%nat = Some "/".

Lemma rootIsShared_lines_skip (line : string) (lines : list string) :
  ~ root_line line ->
  rootIsShared_lines (line :: lines) = rootIsShared_lines lines.
Proof.
  intros Hskip. cbn [rootIsShared_lines]. cbn zeta.
  destruct (6 <=? length (Split " " line))%nat eqn:Hlen; [| reflexivity].
  apply Nat.leb_le in Hlen. unfold index.
  destruct (Split " " line !! 4%nat) as [mountpoint|] eqn:Hmp; [| exfalso].
  - destruct (String.eqb mountpoint "/") eqn:Heq; [| reflexivity].
    apply String.eqb_eq in Heq. subst mountpoint.
    exfalso. apply Hskip. split; assumption.
  - apply lookup_ge_None in Hmp. lia.
Qed.

(** X5.  The first line of the mount table with at least six fields
    and a slash as its fifth field decides: when it has a seventh
    field, [rootIsShared] is whether that field starts with [shared],
    and the lines after it are not looked at. *)
Theorem rootIsShared_first_root_line (h : host) (data : string)
    (pre post : list string) (line mode : string) :
  ReadFile h "/proc/self/mountinfo" = inl data ->
  Split "010" data = pre ++ line :: post ->
  Forall (fun l => ~ root_line l) pre ->
  Split " " line !! 4%nat = Some "/" ->
  Split " " line !! 6%nat = Some mode ->
  rootIsShared h = Value (HasPrefix mode "shared").
Proof.
  intros Hread Hlines Hpre Hmp Hmode.
  unfold rootIsShared. rewrite Hread, Hlines. clear Hread Hlines.
  induction Hpre as [|l pre Hl _ IH].
  - cbn [app rootIsShared_lines]. cbn zeta.
    assert (Hlen : (6 <=? length (Split " " line))%nat = true).
    { apply Nat.leb_le. apply lookup_lt_Some in Hmode. lia. }
    rewrite Hlen. unfold index. rewrite Hmp, Hmode. reflexivity.
  - cbn [app]. rewrite rootIsShared_lines_skip by exact Hl. exact IH.
Qed.

(** X6.  [rootIsShared] panics only on a mount table that holds a line
    of exactly six fields whose fifth field is a slash. *)
Theorem rootIsShared_panic_only (h : host) :
  rootIsShared h = Panic ->
  exists data line,
    ReadFile h "/proc/self/mountinfo" = inl data
    /\ In line (Split "010" data)
    /\ length (Split " " line) = 6%nat
    /\ Split " " line !! 4%nat = Some "/".
Proof.
  unfold rootIsShared.
  destruct (ReadFile h "/proc/self/mountinfo") as [data|e]; [| discriminate].
  intros Hpanic. exists data.
  assert (Hline : exists line,
            In line (Split "010" data)
            /\ length (Split " " line) = 6%nat
            /\ Split " " line !! 4%nat = Some "/").
  { induction (Split "010" data) as [|l lines IH]; [discriminate |].
    cbn [rootIsShared_lines] in Hpanic. cbn zeta in Hpanic.
    destruct (6 <=? length (Split " " l))%nat eqn:Hlen.
    - apply Nat.leb_le in Hlen. unfold index in Hpanic.
      destruct (Split " " l !! 4%nat) as [mountpoint|] eqn:Hmp.
      + destruct (String.eqb mountpoint "/") eqn:Heq.
        * apply String.eqb_eq in Heq. subst mountpoint.
          destruct (Split " " l !! 6%nat) as [mode|] eqn:Hmode;
            [discriminate |].
          apply lookup_ge_None in Hmode.
          exists l. repeat split; [now left | lia | exact Hmp].
        * destruct (IH Hpanic) as (line & Hin & Hsix & Hroot).
          exists line. repeat split; [now right | exact Hsix | exact Hroot].
      + apply lookup_ge_None in Hmp. lia.
    - destruct (IH Hpanic) as (line & Hin & Hsix & Hroot).
      exists line. repeat split; [now right | exact Hsix | exact Hroot]. }
  destruct Hline as (line & Hin & Hsix & Hroot).
  exists line. repeat split; assumption.
Qed.

(** X7.  When the mount table cannot be read, or when none of its
    lines has at least six fields and a slash as the fifth one, the
    root is taken to be shared. *)
Theorem rootIsShared_default (h : host) :
  match ReadFile h "/proc/self/mountinfo" with
  | inr _ => True
  | inl data => Forall (fun l => ~ root_line l) (Split "010" data)
  end ->
  rootIsShared h = Value true.
Proof.
  unfold rootIsShared.
  destruct (ReadFile h "/proc/self/mountinfo") as [data|e]; [| reflexivity].
  intros Hnone. induction Hnone as [|l lines Hl _ IH]; [reflexivity |].
  rewrite rootIsShared_lines_skip by exact Hl. exact IH.
Qed.

End MountTable.

(** The root is the second mount of the table, and it is private; the
    shared mount after it does not count. *)
Lemma rootIsShared_first_root_line_witness :
  Lxc.rootIsShared
    (Demo.mounted
       ("18 25 0:17 / /sys rw,nosuid shared:7 - sysfs sysfs rw" +:+ Demo.nl
        +:+ "25 0 8:1 / / rw,relatime - ext4 /dev/sda1 rw" +:+ Demo.nl
        +:+ "30 25 8:2 / / rw shared:1 - ext4 /dev/sda2 rw" +:+ Demo.nl))
  = Lxc.Value false.
Proof.
  set (table := _ +:+ _).
  apply (rootIsShared_first_root_line (Demo.mounted table) table
           ["18 25 0:17 / /sys rw,nosuid shared:7 - sysfs sysfs rw"]
           ["30 25 8:2 / / rw shared:1 - ext4 /dev/sda2 rw"; EmptyString]
           "25 0 8:1 / / rw,relatime - ext4 /dev/sda1 rw" "-").
  - reflexivity.
  - reflexivity.
  - repeat constructor. cbn. intros [_ Hroot]. discriminate.
  - reflexivity.
  - reflexivity.
Defined.

Lemma rootIsShared_panic_only_witness :
  exists data line,
    Lxc.ReadFile (Demo.mounted "1 2 3 4 / 6") "/proc/self/mountinfo"
    = inl data
    /\ In line (Go.Split "010" data)
    /\ length (Go.Split " " line) = 6%nat
    /\ Go.Split " " line !! 4%nat = Some "/".
Proof.
  apply (rootIsShared_panic_only (Demo.mounted "1 2 3 4 / 6")). reflexivity.
Defined.

(** A mount table without a line for the root. *)
Lemma rootIsShared_default_witness :
  Lxc.rootIsShared
    (Demo.mounted "18 25 0:17 / /sys rw,nosuid shared:7 - sysfs sysfs rw")
  = Lxc.Value true
  /\ Lxc.rootIsShared (Demo.broken Demo.enoent) = Lxc.Value true.
Proof.
  split.
  - apply rootIsShared_default. cbn.
    repeat constructor. cbn. intros [_ Hroot]. discriminate.
  - apply rootIsShared_default. exact I.
Defined.

(** ** What [Run] returns *)

Section RunOutcomes.
Import Go Lxc Query.

Variable h : host.
Variable d : driver.
Variable c : Command.

(** The loop of [waitForStart] only reads the clock, looks at the
    channel, runs commands and sleeps. *)
Lemma waitForStart_loop_polls (fuel : nat) (s : state) :
  exists added,
    trace (fst (waitForStart_loop fuel h c s)) = trace s ++ added
    /\ forallb is_polling added = true.
Proof.
  revert s. induction fuel as [|fuel IH]; intros s.
  - exists []. cbn. now rewrite app_nil_r.
  - rewrite waitForStart_loop_round. cbn zeta.
    assert (Hnext : forall s' more,
              trace s' = trace s ++ more -> forallb is_polling more = true ->
              exists added,
                trace (fst (waitForStart_loop fuel h c s')) = trace s ++ added
                /\ forallb is_polling added = true).
    { intros s' more Htrace Hmore. destruct (IH s') as (added & Hadd & Hpoll).
      exists (more ++ added). rewrite Hadd, Htrace, <- app_assoc.
      split; [reflexivity |]. rewrite forallb_app, Hmore, Hpoll. reflexivity. }
    repeat match goal with
           | |- context [if ?b then _ else _] => destruct b
           | |- context [match ?r with (_, _) => _ end] => destruct r
           | |- context [match ?o with Some _ => _ | None => _ end] =>
               destruct o
           end;
      match goal with
      | |- context [waitForStart_loop] =>
          eapply Hnext; [state_fields; rewrite <- !app_assoc; reflexivity
                        | reflexivity]
      | |- _ =>
          cbn [fst]; state_fields; rewrite <- ?app_assoc;
          eexists; split; [reflexivity | reflexivity]
      end.
Qed.

Lemma waitForStart_polls (fuel : nat) (s : state) :
  exists added,
    trace (fst (waitForStart fuel h c s)) = trace s ++ added
    /\ forallb is_polling added = true.
Proof.
  unfold waitForStart, bind, return_.
  pose proof (waitForStart_loop_polls fuel s) as Hloop.
  destruct (waitForStart_loop fuel h c s) as [s' [[]|r|]]; exact Hloop.
Qed.

(** What [waitForStart] returns is never a fall through. *)
Lemma waitForStart_returns (fuel : nat) (s : state) :
  snd (waitForStart fuel h c s) <> Next tt.
Proof.
  unfold waitForStart, bind, return_.
  destruct (waitForStart_loop fuel h c s) as [s' [[]|r|]]; discriminate.
Qed.

(** [Run] by cases on the launch, the start confirmation and the
    wait. *)
Lemma Run_cases (fuel : nat) (startCallback : bool) (s : state) :
  Run fuel h d c startCallback s
  = match Run_launch h d c s with
    | (s0, Next _) =>
        match waitForStart fuel h c (with_waitErr None s0) with
        | (s1, Return None) =>
            let s2 := if startCallback then log EvCallback s1 else s1 in
            match exit_watcher h s2 with
            | (s3, Next _) =>
                (s3, Return (match ProcessState s3 with
                             | None => -1
                             | Some status => ExitStatus status
                             end, waitErr s3))
            | (s3, _) => (s3, Stuck)
            end
        | (s1, Return (Some err)) => (s1, Return (-1, Some err))
        | (s1, _) => (s1, Stuck)
        end
    | (s0, Return r) => (s0, Return r)
    | (s0, Stuck) => (s0, Stuck)
    end.
Proof.
  unfold Run, bind.
  destruct (Run_launch h d c s) as [s0 [[]|r|]]; [| reflexivity ..].
  unfold Run_supervise, bind, set_waitErr, call.
  destruct (waitForStart fuel h c (with_waitErr None s0)) as [s1 [[]|[e|]|]];
    try reflexivity.
  unfold recv_waitLock, getExitCode, get, bind, emit, ret, return_.
  destruct startCallback; cbn beta iota zeta;
    match goal with
    | |- context [exit_watcher h ?s2] =>
        destruct (exit_watcher h s2) as [s3 [[]|r|]]
    end; try reflexivity;
    cbn beta iota zeta; destruct (ProcessState s3); reflexivity.
Qed.

(** A launch that returns has failed: the code is -1 and the error is
    not nil. *)
Lemma Run_launch_returns (s s0 : state) (code : Z) (err : option error) :
  Run_launch h d c s = (s0, Return (code, err)) ->
  code = -1 /\ err <> None.
Proof.
  unfold Run_launch.
  destruct (SetTerminal h) as [e|].
  { unfold return_. intros [= <- <- <-]. split; [reflexivity | discriminate]. }
  unfold bind at 1. rewrite generateLXCConfig_run. cbn zeta.
  destruct (Create h _) as [e|].
  { unfold return_. intros [= <- <- <-]. split; [reflexivity | discriminate]. }
  destruct (TemplateExecute h) as [e|].
  { unfold return_. intros [= <- <- <-]. split; [reflexivity | discriminate]. }
  destruct (Run_argv d c _) as [|name arg]; [discriminate |].
  unfold bind, set_Path_Args, emit, return_, ret. cbn beta iota zeta.
  destruct (Start h) as [e|]; [| discriminate].
  intros [= <- <- <-]. split; [reflexivity | discriminate].
Qed.

Lemma exit_watcher_blocked (s : state) :
  ProcessWait h = None -> exit_watcher h s = (log EvWait s, Stuck).
Proof.
  intros Hwait. unfold exit_watcher, Cmd_Wait, bind, emit, stuck.
  cbn beta iota zeta. rewrite Hwait. reflexivity.
Qed.

Lemma ExitStatus_range (status : WaitStatus) :
  -1 <= ExitStatus status <= 255.
Proof.
  unfold ExitStatus. destruct (Exited status); [| lia].
  change 255 with (Z.ones 8) at 1 2. rewrite Z.land_ones by lia.
  pose proof (Z.mod_pos_bound (Z.shiftr status 8) (2 ^ 8)). lia.
Qed.

(** X8.  Whatever [Run] returns, the exit code lies between -1 and
    255.  A code that is not negative is the exit status of a child
    that was waited for and had exited normally, and a code above zero
    always comes with a nil error. *)
Theorem Run_exit_code (fuel : nat) (startCallback : bool) (s : state)
    (code : Z) (err : option error) :
  snd (Run fuel h d c startCallback s) = Return (code, err) ->
  -1 <= code <= 255
  /\ (0 <= code ->
      exists status,
        ProcessWait h = Some (inl status)
        /\ Exited status = true
        /\ code = Z.land (Z.shiftr status 8) 255)
  /\ (0 < code -> err = None).
Proof.
  rewrite Run_cases.
  destruct (Run_launch h d c s) as [s0 [[]|[code0 err0]|]] eqn:Hlaunch;
    cbn [snd]; [| | discriminate].
  2:{ intros [= <- <-].
      destruct (Run_launch_returns _ _ _ _ Hlaunch) as [-> _].
      repeat split; lia. }
  pose proof (waitForStart_waitErr h c fuel (with_waitErr None s0)) as Hkeep.
  destruct (waitForStart fuel h c (with_waitErr None s0))
    as [s1 [[]|[e|]|]]; cbn [snd]; try discriminate.
  { intros [= <- <-]. repeat split; lia. }
  cbn [fst waitErr with_waitErr] in Hkeep. cbn zeta.
  set (s2 := if startCallback then log EvCallback s1 else s1).
  assert (Hs2 : waitErr s2 = None).
  { subst s2. destruct startCallback; exact Hkeep. }
  destruct (ProcessWait h) as [r|] eqn:Hwait.
  2:{ rewrite (exit_watcher_blocked s2 Hwait). discriminate. }
  rewrite (exit_watcher_done h r s2 Hwait). cbn [snd].
  destruct r as [status | e].
  - intros [= <- <-].
    replace (ProcessState _) with (Some status)
      by (destruct (Success status); [destruct (CopyError h) as [e|];
            [destruct (is_ExitError e) |] |]; reflexivity).
    split; [apply ExitStatus_range |]. split.
    + intros Hcode. exists status. split; [reflexivity |].
      unfold ExitStatus in *. destruct (Exited status); [| lia].
      split; reflexivity.
    + intros Hcode.
      assert (Hfail : Success status = false).
      { unfold Success. apply Z.eqb_neq. lia. }
      rewrite Hfail. exact Hs2.
  - intros [= <- <-].
    replace (ProcessState _) with (@None WaitStatus)
      by (destruct (is_ExitError e); reflexivity).
    repeat split; lia.
Qed.

(** X9.  [Run] calls the start callback at most once, and only when a
    callback was given, the launch succeeded and the start was
    confirmed. *)
Theorem Run_callback_once (fuel : nat) (startCallback : bool) (s : state) :
  (length (List.filter is_callback
             (trace (fst (Run fuel h d c startCallback s))))
   <= length (List.filter is_callback (trace s)) + 1)%nat
  /\ (length (List.filter is_callback (trace s))
      < length (List.filter is_callback
                  (trace (fst (Run fuel h d c startCallback s)))) ->
      startCallback = true
      /\ exists s0,
          Run_launch h d c s = (s0, Next tt)
          /\ snd (waitForStart fuel h c (with_waitErr None s0))
             = Return None)%nat.
Proof.
  assert (Hquiet : forall added,
            forallb is_polling added = true ->
            List.filter is_callback added = []).
  { induction added as [|e added IH]; [reflexivity |].
    cbn [forallb List.filter]. intros [He Hadded]%andb_prop.
    rewrite (IH Hadded). destruct e; try discriminate; reflexivity. }
  assert (Hlaunch : forall s0 r,
            Run_launch h d c s = (s0, r) ->
            List.filter is_callback (trace s0)
            = List.filter is_callback (trace s)).
  { unfold Run_launch. intros s0 r.
    destruct (SetTerminal h) as [e|]; [now intros [= <- <-] |].
    unfold bind at 1. rewrite generateLXCConfig_run. cbn zeta.
    destruct (Create h _) as [e|].
    { intros [= <- <-]. state_fields. rewrite List.filter_app.
      apply app_nil_r. }
    assert (Hconfig : forall name t,
              List.filter is_callback
                (t ++ [EvCreate name] ++ [EvExecute name]
                   ++ [EvFileClose name])
              = List.filter is_callback t).
    { intros name t. rewrite List.filter_app. apply app_nil_r. }
    destruct (TemplateExecute h) as [e|].
    { intros [= <- <-]. state_fields. rewrite <- !app_assoc. apply Hconfig. }
    destruct (Run_argv d c _) as [|name arg].
    { intros [= <- <-]. state_fields. rewrite <- !app_assoc. apply Hconfig. }
    unfold bind, set_Path_Args, emit, return_, ret. cbn beta iota zeta.
    destruct (Start h) as [e|]; intros [= <- <-]; state_fields;
      cbn [trace with_Path_Args]; state_fields;
      rewrite List.filter_app, app_nil_r, <- !app_assoc; apply Hconfig. }
  rewrite Run_cases.
  destruct (Run_launch h d c s) as [s0 [[]|r|]] eqn:Hl;
    specialize (Hlaunch _ _ eq_refl);
    [| cbn [fst]; rewrite Hlaunch; split; lia ..].
  destruct (waitForStart_polls fuel (with_waitErr None s0))
    as (added & Hadded & Hpoll).
  cbn [trace with_waitErr] in Hadded.
  destruct (waitForStart fuel h c (with_waitErr None s0))
    as [s1 [[]|[e|]|]] eqn:Hw; cbn [fst] in Hadded;
    try (cbn [fst]; rewrite Hadded, List.filter_app, (Hquiet _ Hpoll),
           app_nil_r, Hlaunch; split; lia).
  cbn zeta.
  assert (Hwatch : forall s2,
            List.filter is_callback (trace (fst (exit_watcher h s2)))
            = List.filter is_callback (trace s2)).
  { intros s2. destruct (ProcessWait h) as [r|] eqn:Hwait.
    - rewrite (exit_watcher_done h r s2 Hwait). cbn [fst]. state_fields.
      replace (trace _) with (trace (log EvWait s2)).
      + state_fields. rewrite !List.filter_app. cbn. now rewrite !app_nil_r.
      + destruct r as [status | e0];
          [destruct (Success status); [destruct (CopyError h) as [e0|];
             [destruct (is_ExitError e0) |] |]
          | destruct (is_ExitError e0)]; reflexivity.
    - rewrite (exit_watcher_blocked s2 Hwait). cbn [fst]. state_fields.
      rewrite List.filter_app. cbn. now rewrite app_nil_r. }
  match goal with
  | |- context [exit_watcher h ?s2] =>
      specialize (Hwatch s2); destruct (exit_watcher h s2) as [s3 [[]|r|]]
  end; cbn [fst] in *; rewrite Hwatch;
    (destruct startCallback; state_fields;
     rewrite ?List.filter_app, Hadded, List.filter_app, (Hquiet _ Hpoll),
       app_nil_r, Hlaunch; cbn [List.filter is_callback length app];
     rewrite ?length_app; cbn [length];
     (split; [lia |]); intros Hmore;
     [split; [reflexivity |]; exists s0; split;
        [reflexivity | rewrite Hw; reflexivity] | lia]).
Qed.

(** X10.  [Run] has no timeout on the child: while the child has not
    exited, it returns only the failure of a launch or of a start
    confirmation, and once the start is confirmed it waits. *)
Theorem Run_waits_for_exit (fuel : nat) (startCallback : bool) (s : state) :
  ProcessWait h = None ->
  (forall code err,
     snd (Run fuel h d c startCallback s) = Return (code, err) ->
     code = -1 /\ err <> None)
  /\ (forall s0,
        Run_launch h d c s = (s0, Next tt) ->
        snd (waitForStart fuel h c (with_waitErr None s0)) = Return None ->
        snd (Run fuel h d c startCallback s) = Stuck).
Proof.
  intros Hwait. rewrite Run_cases. split.
  - intros code err.
    destruct (Run_launch h d c s) as [s0 [[]|[code0 err0]|]] eqn:Hlaunch;
      cbn [snd]; [| | discriminate].
    2:{ intros [= <- <-]. exact (Run_launch_returns _ _ _ _ Hlaunch). }
    destruct (waitForStart fuel h c (with_waitErr None s0))
      as [s1 [[]|[e|]|]]; cbn [snd]; try discriminate.
    + intros [= <- <-]. split; [reflexivity | discriminate].
    + cbn zeta. rewrite exit_watcher_blocked by exact Hwait. discriminate.
  - intros s0 -> Hconfirmed.
    destruct (waitForStart fuel h c (with_waitErr None s0)) as [s1 r].
    cbn [snd] in Hconfirmed. subst r. cbn zeta.
    rewrite exit_watcher_blocked by exact Hwait. reflexivity.
Qed.

(** X11.  When the wait for the child itself fails, after a confirmed
    start, [Run] returns -1 together with the error of the wait. *)
Theorem Run_wait_failure (fuel : nat) (startCallback : bool) (s s0 : state)
    (e : error) :
  ProcessWait h = Some (inr e) ->
  is_ExitError e = false ->
  Run_launch h d c s = (s0, Next tt) ->
  snd (waitForStart fuel h c (with_waitErr None s0)) = Return None ->
  snd (Run fuel h d c startCallback s) = Return (-1, Some e).
Proof.
  intros Hwait He Hlaunch Hconfirmed. rewrite Run_cases, Hlaunch.
  destruct (waitForStart fuel h c (with_waitErr None s0)) as [s1 r].
  cbn [snd] in Hconfirmed. subst r. cbn zeta.
  rewrite (exit_watcher_wait_failure h _ _ Hwait He). reflexivity.
Qed.


(** X13.  The file given to [lxc-start] after [-f] is the configuration
    file that [generateLXCConfig] has just written for this container,
    [root/containers/ID/config.lxc], and the name after [-n] is the ID
    of the container. *)
Theorem Run_config_file (s : state) :
  SetTerminal h = None ->
  Create h (Join [root d; "containers"; ID c; "config.lxc"]) = None ->
  TemplateExecute h = None ->
  sharedRoot d = false ->
  let args := Args (fst (Run_launch h d c s)) in
  args !! 1%nat = Some "-n"
  /\ args !! 2%nat = Some (ID c)
  /\ args !! 3%nat = Some "-f"
  /\ args !! 4%nat
     = Some (Join [root d; "containers"; ID c; "config.lxc"]).
Proof.
  intros Hterm Hcreate Htemplate Hdirect.
  destruct (Run_launch_started h d c s Hterm Hcreate Htemplate)
    as (name & arg & Hargv & Hlaunch).
  cbn zeta in Hlaunch. rewrite Hlaunch. cbn [fst Args log with_Path_Args].
  rewrite <- Hargv. unfold Run_argv. rewrite Hdirect.
  unfold Run_params.
  destruct (Net c), (String.eqb (User c) EmptyString), (Privileged c),
    (apparmor d), (String.eqb (WorkingDir c) EmptyString);
    repeat split.
Qed.

End RunOutcomes.

(** The container is confirmed and exits with status 1. *)
Lemma Run_exit_code_witness :
  -1 <= 1 <= 255
  /\ (0 <= 1 ->
      exists status,
        Lxc.ProcessWait
          (Demo.host_with "RUNNING" 1000 (Some (inl 256)) EmptyString)
        = Some (inl status)
        /\ Go.Exited status = true
        /\ 1 = Z.land (Z.shiftr status 8) 255)
  /\ (0 < 1 -> @None Lxc.error = None).
Proof.
  apply (Run_exit_code
           (Demo.host_with "RUNNING" 1000 (Some (inl 256)) EmptyString)
           Demo.direct Demo.plain 1 true Lxc.initial 1 None).
  reflexivity.
Defined.

Lemma Run_callback_once_witness :
  let h := Demo.host_with "RUNNING" 1000 (Some (inl 256)) EmptyString in
  true = true
  /\ exists s0,
      Lxc.Run_launch h Demo.direct Demo.plain Lxc.initial = (s0, Next tt)
      /\ snd (Lxc.waitForStart 1 h Demo.plain (Lxc.with_waitErr None s0))
         = Return None.
Proof.
  intros h.
  apply (proj2 (Run_callback_once h Demo.direct Demo.plain 1 true
                  Lxc.initial)).
  vm_compute. lia.
Defined.

(** The container is confirmed and never exits. *)
Lemma Run_waits_for_exit_witness :
  let h := Demo.host_with "RUNNING" 1000 None EmptyString in
  snd (Lxc.Run 1 h Demo.direct Demo.plain true Lxc.initial) = Stuck.
Proof.
  intros h.
  apply (proj2 (Run_waits_for_exit h Demo.direct Demo.plain 1 true
                  Lxc.initial eq_refl)
           (fst (Lxc.Run_launch h Demo.direct Demo.plain Lxc.initial)));
    reflexivity.
Defined.

Lemma Run_wait_failure_witness :
  let h := Demo.host_with "RUNNING" 1000 (Some (inr Demo.enoent)) EmptyString in
  snd (Lxc.Run 1 h Demo.direct Demo.plain true Lxc.initial)
  = Return (-1, Some Demo.enoent).
Proof.
  intros h.
  apply (Run_wait_failure h Demo.direct Demo.plain 1 true Lxc.initial
           (fst (Lxc.Run_launch h Demo.direct Demo.plain Lxc.initial))
           Demo.enoent); reflexivity.
Defined.

Lemma Run_config_file_witness :
  let args :=
    Lxc.Args
      (fst (Lxc.Run_launch
              (Demo.host_with "RUNNING" 1000 None EmptyString)
              Demo.direct Demo.web Lxc.initial)) in
  args !! 1%nat = Some "-n"
  /\ args !! 2%nat = Some "c0ffee"
  /\ args !! 3%nat = Some "-f"
  /\ args !! 4%nat = Some "/var/lib/docker/containers/c0ffee/config.lxc".
Proof.
  apply (Run_config_file
           (Demo.host_with "RUNNING" 1000 None EmptyString)
           Demo.direct Demo.web Lxc.initial); reflexivity.
Defined.

(** ** More on the PIDs of a container *)

Section PidRange.
Import Go Lxc.
Context `{ErrorText}.

Lemma digit_of_range (c : ascii) (v : Z) : digit_of c = Some v -> 0 <= v <= 9.
Proof.
  unfold digit_of.
  destruct (48 <=? Z.of_N (N_of_ascii c)) eqn:Hlow;
    destruct (Z.of_N (N_of_ascii c) <=? 57) eqn:Hhigh; cbn; try discriminate.
  intros [= <-]. apply Z.leb_le in Hlow, Hhigh. lia.
Qed.

Lemma parse_digits_nonneg (s : string) (n m : Z) :
  0 <= n -> parse_digits s n = inl m -> 0 <= m.
Proof.
  revert n. induction s as [|c s IH]; intros n Hn; cbn [parse_digits].
  - intros [= <-]. exact Hn.
  - destruct (digit_of c) as [v|] eqn:Hdigit; [| discriminate].
    apply digit_of_range in Hdigit.
    destruct ((2 ^ 64 - 1) / 10 + 1 <=? n); [discriminate |].
    destruct (2 ^ 64 - 1 <? n * 10 + v); [discriminate |].
    apply IH. lia.
Qed.

Lemma ParseUint_nonneg (s : string) (un : Z) : ParseUint s = inl un -> 0 <= un.
Proof.
  unfold ParseUint. destruct s as [|c s]; [discriminate |].
  apply parse_digits_nonneg. lia.
Qed.

(** What [strconv.Atoi] accepts fits a 64-bit [int]. *)
Lemma Atoi_range (s : string) (n : Z) :
  Atoi s = inl n -> - 2 ^ 63 <= n < 2 ^ 63.
Proof.
  unfold Atoi. destruct s as [|c s]; [discriminate |]. cbn zeta.
  match goal with
  | |- context [ParseUint ?b] =>
      destruct (ParseUint b) as [un|e] eqn:Hbody; [| discriminate]
  end.
  apply ParseUint_nonneg in Hbody.
  destruct (Ascii.eqb c "-"); cbn [negb andb].
  - destruct (2 ^ 63 <? un) eqn:Hbig; [discriminate |].
    apply Z.ltb_ge in Hbig. intros [= <-]. lia.
  - destruct (2 ^ 63 <=? un) eqn:Hbig; [discriminate |].
    apply Z.leb_gt in Hbig. intros [= <-]. lia.
Qed.

Lemma GetPidsForContainer_lines_range (lines : list string) (pids out : list Z)
    (err : option error) :
  Forall (fun pid => - 2 ^ 63 <= pid < 2 ^ 63) pids ->
  GetPidsForContainer_lines lines pids = (out, err) ->
  Forall (fun pid => - 2 ^ 63 <= pid < 2 ^ 63) out
  /\ (length out <= length pids + length lines)%nat.
Proof.
  revert pids. induction lines as [|p lines IH]; intros pids Hpids;
    cbn [GetPidsForContainer_lines].
  - intros [= <- <-]. split; [exact Hpids | lia].
  - destruct (String.length p =? 0)%nat.
    + intros Hrest. destruct (IH pids Hpids Hrest) as [Hout Hlen].
      split; [exact Hout | cbn [length]; lia].
    + destruct (Atoi p) as [pid|e] eqn:Hpid.
      * intros Hrest. destruct (IH (pids ++ [pid])) with (2 := Hrest)
          as [Hout Hlen].
        { apply Forall_app. split; [exact Hpids |].
          constructor; [exact (Atoi_range _ _ Hpid) | constructor]. }
        split; [exact Hout |].
        rewrite length_app in Hlen. cbn [length] in *. lia.
      * intros [= <- <-]. split; [exact Hpids | cbn [length]; lia].
Qed.

(** X14.  Every PID that [GetPidsForContainer] returns, with or without
    an error, fits a signed 64-bit integer; a sign is accepted, so the
    list may hold negative numbers. *)
Theorem GetPidsForContainer_range (h : host) (id : string) (s : state)
    (pids : list Z) (err : option error) :
  snd (GetPidsForContainer h id s) = Return (pids, err) ->
  Forall (fun pid => - 2 ^ 63 <= pid < 2 ^ 63) pids.
Proof.
  unfold GetPidsForContainer.
  destruct (FindCgroupMountpoint h "memory") as [mnt|e].
  2:{ intros [= <- <-]. constructor. }
  destruct (GetThisCgroupDir h "memory") as [dir|e].
  2:{ intros [= <- <-]. constructor. }
  unfold bind, os_Stat, ioutil_ReadFile, bind, emit, ret, return_.
  cbn beta iota zeta.
  match goal with
  | |- context [ReadFile h ?f] => destruct (ReadFile h f) as [output|e]
  end; cbn [snd].
  2:{ intros [= <- <-]. constructor. }
  intros [= Hlines].
  destruct (GetPidsForContainer_lines (Split "010" output) [])
    as [out e] eqn:Hrun.
  injection Hlines as <- <-.
  eapply GetPidsForContainer_lines_range; [| exact Hrun]. constructor.
Qed.

End PidRange.

Lemma GetPidsForContainer_range_witness :
  Forall (fun pid => - 2 ^ 63 <= pid < 2 ^ 63) [123; 456].
Proof.
  apply (GetPidsForContainer_range (H := Demo.text)
           (Demo.host_with "RUNNING" 1000 None Demo.tasks_ok) "c0ffee"
           Lxc.initial [123; 456] None).
  reflexivity.
Defined.

Example GetPidsForContainer_signed :
  snd (Lxc.GetPidsForContainer (H := Demo.text)
         (Demo.host_with "RUNNING" 1000 None ("-5" +:+ Demo.nl +:+ "+7"))
         "c0ffee" Lxc.initial)
  = Return ([-5; 7], None).
Proof. reflexivity. Qed.

(** ** The name of the driver *)

Section Naming.
Import Go Lxc Query.
Context `{Strings}.

Lemma Contains_colon (c : ascii) (s : string) :
  Contains (String c s) ":" = Ascii.eqb c ":" || Contains s ":".
Proof.
  cbn [Contains String.prefix].
  destruct (ascii_dec ":" c) as [<- | Hne].
  - destruct s; reflexivity.
  - assert (Hc : Ascii.eqb c ":" = false).
    { apply Ascii.eqb_neq. congruence. }
    rewrite Hc. reflexivity.
Qed.

Lemma SplitN2_without (s : string) :
  Contains s ":" = false -> SplitN2 ":" s = [s].
Proof.
  induction s as [|c s IH]; [reflexivity |].
  rewrite Contains_colon. intros [Hc Hs]%orb_false_elim.
  cbn [SplitN2]. rewrite Hc, (IH Hs). reflexivity.
Qed.

Lemma SplitN2_first (before after : string) :
  Contains before ":" = false ->
  SplitN2 ":" (before +:+ String ":" after) = [before; after].
Proof.
  induction before as [|c before IH].
  - intros _. reflexivity.
  - rewrite Contains_colon. intros [Hc Hs]%orb_false_elim.
    cbn [String.append SplitN2]. rewrite Hc, (IH Hs). reflexivity.
Qed.

(** X15.  The name of the driver is [lxc-] followed by the version.
    The version is empty when [lxc-version] fails or prints no colon;
    otherwise it is what follows the first colon of the output, later
    colons included, with the white space around it trimmed.  Reading
    the second part of the split never goes out of range. *)
Theorem Name_version (h : host) (s : state) :
  (forall output e,
     Exec h (execs s) ["lxc-version"] = (output, Some e) ->
     snd (Name h s) = Return (Value "lxc-"))
  /\ (forall output,
        Exec h (execs s) ["lxc-version"] = (output, None) ->
        Contains output ":" = false ->
        snd (Name h s) = Return (Value "lxc-"))
  /\ (forall before after,
        Exec h (execs s) ["lxc-version"]
        = (before +:+ String ":" after, None) ->
        Contains before ":" = false ->
        snd (Name h s) = Return (Value ("lxc-" +:+ TrimSpace after)))
  /\ snd (Name h s) <> Return Panic.
Proof.
  unfold Name, version, call, bind, CombinedOutput, return_.
  repeat split.
  - intros output e ->. reflexivity.
  - intros output -> Hnone. rewrite SplitN2_without by exact Hnone.
    reflexivity.
  - intros before after -> Hfirst. rewrite SplitN2_first by exact Hfirst.
    reflexivity.
  - destruct (Exec h (execs s) ["lxc-version"]) as [output [e|]];
      [discriminate |].
    destruct (length (SplitN2 ":" output) =? 2)%nat eqn:Hlen;
      [| discriminate].
    apply Nat.eqb_eq in Hlen. unfold index.
    destruct (SplitN2 ":" output !! 1%nat) as [part|] eqn:Hpart;
      [discriminate |].
    apply lookup_ge_None in Hpart. lia.
Qed.

End Naming.

Lemma Name_version_witness :
  let h := Sample.answering (fun _ => ("lxc version: 0.9.0: beta", None)) in
  snd (Query.Name (H := Sample.trim) h Lxc.initial)
  = Return (Lxc.Value "lxc-0.9.0: beta").
Proof.
  intros h.
  apply (proj1 (proj2 (proj2 (Name_version (H := Sample.trim) h Lxc.initial)))
           "lxc version" " 0.9.0: beta"); reflexivity.
Defined.

Example Name_without_version :
  snd (Query.Name (H := Sample.trim)
         (Sample.failing 0 Demo.enoent) Lxc.initial)
  = Return (Lxc.Value "lxc-")
  /\ snd (Query.Name (H := Sample.trim)
            (Sample.answering (fun _ => ("command not found", None)))
            Lxc.initial)
     = Return (Lxc.Value "lxc-").
Proof. split; reflexivity. Qed.

(** ** Construction of the driver *)

Section Construction.
Import Go Lxc Setup.

Variable h : host.
Variable root : string.

(** The link next to the containers of the driver. *)
Let target : string := Join [root; "lxc-start-unconfined"].

(** X16.  When [lxc-start] is found and the host refuses nothing on
    the path of the link, [linkLxcStart] succeeds whether the link
    exists or not: afterwards the path is a link to the [lxc-start]
    found, the other entries are as they were, and doing it again
    changes nothing. *)
Theorem linkLxcStart_links (fs : fsys) (source : string) :
  LookPath h "lxc-start" = inl source ->
  (forall op, fault fs op target = None) ->
  linkLxcStart h root fs
  = (with_entries (<[target := Link source]> (entries fs)) fs, Return None)
  /\ linkLxcStart h root (fst (linkLxcStart h root fs))
     = linkLxcStart h root fs.
Proof.
  intros Hfound Hfree.
  assert (Hlink : forall fs0,
            (forall op, fault fs0 op target = None) ->
            linkLxcStart h root fs0
            = (with_entries (<[target := Link source]> (entries fs0)) fs0,
               Return None)).
  { intros fs0 Hfree0.
    unfold linkLxcStart, bind, os_Lstat, os_Remove, os_Symlink, return_, ret.
    rewrite Hfound. fold target.
    destruct (entries fs0 !! target) as [old|] eqn:Hold;
      repeat progress
        (rewrite ?Hfree0, ?Hold, ?lookup_delete_eq;
         cbn beta iota zeta;
         cbn [fault with_entries entries IsNotExist ENOENT negb]);
      [| reflexivity].
    unfold with_entries. cbn [entries fault].
    rewrite insert_delete_eq. reflexivity. }
  split; [apply Hlink, Hfree |].
  rewrite (Hlink fs Hfree). cbn [fst].
  rewrite Hlink by exact Hfree.
  unfold with_entries. cbn [entries fault].
  rewrite insert_insert_eq. reflexivity.
Qed.

(** X17.  Whatever happens, [linkLxcStart] returns, and it touches no
    other path than that of the link; when it fails, the link is as
    it was or is gone. *)
Theorem linkLxcStart_frame (fs : fsys) :
  (exists err, snd (linkLxcStart h root fs) = Return err)
  /\ (forall p, p <> target ->
      entries (fst (linkLxcStart h root fs)) !! p = entries fs !! p)
  /\ (forall e, snd (linkLxcStart h root fs) = Return (Some e) ->
      entries (fst (linkLxcStart h root fs)) !! target = entries fs !! target
      \/ entries (fst (linkLxcStart h root fs)) !! target = None).
Proof.
  unfold linkLxcStart, bind, os_Lstat, os_Remove, os_Symlink, return_, ret.
  fold target.
  destruct (LookPath h "lxc-start") as [source|e0].
  2:{ cbn [fst snd]. repeat split; eauto. }
  cbn beta iota zeta.
  destruct (fault fs OpLstat target) as [e1|].
  { destruct (negb (IsNotExist (Some e1))).
    - cbn [fst snd]. repeat split; eauto.
    - destruct (fault fs OpSymlink target) as [e3|];
        [cbn [fst snd]; repeat split; eauto |].
      destruct (entries fs !! target) as [old|] eqn:Hold;
        cbn [fst snd with_entries entries]; repeat split; eauto.
      + intros p Hp. now rewrite lookup_insert_ne by congruence.
      + discriminate. }
  destruct (entries fs !! target) as [old|] eqn:Hold.
  - cbn beta iota zeta.
    destruct (fault fs OpRemove target) as [e2|];
      [cbn [fst snd]; repeat split; eauto |].
    rewrite Hold. cbn [fault with_entries entries].
    destruct (fault fs OpSymlink target) as [e3|].
    + cbn [fst snd with_entries entries]. repeat split; eauto.
      * intros p Hp. now rewrite lookup_delete_ne by congruence.
      * intros e _. right. apply lookup_delete_eq.
    + rewrite lookup_delete_eq. cbn [fst snd with_entries entries].
      repeat split; eauto.
      * intros p Hp.
        rewrite lookup_insert_ne, lookup_delete_ne by congruence.
        reflexivity.
      * discriminate.
  - cbn [IsNotExist ENOENT negb]. cbn beta iota zeta.
    destruct (fault fs OpSymlink target) as [e3|];
      [cbn [fst snd]; repeat split; eauto |].
    rewrite Hold. cbn [fst snd with_entries entries]. repeat split; eauto.
    + intros p Hp. now rewrite lookup_insert_ne by congruence.
    + discriminate.
Qed.

(** X18.  The removal and the creation of the link are two steps: when
    the link exists and the host refuses the creation of the new one,
    [linkLxcStart] returns that error and the old link is gone. *)
Theorem linkLxcStart_not_atomic (fs : fsys) (source : string) (old : node)
    (e : error) :
  LookPath h "lxc-start" = inl source ->
  entries fs !! target = Some old ->
  fault fs OpLstat target = None ->
  fault fs OpRemove target = None ->
  fault fs OpSymlink target = Some e ->
  linkLxcStart h root fs
  = (with_entries (delete target (entries fs)) fs, Return (Some e)).
Proof.
  intros Hfound Hold Hlstat Hremove Hsymlink.
  unfold linkLxcStart, bind, os_Lstat, os_Remove, os_Symlink, return_, ret.
  rewrite Hfound. fold target. cbn beta iota zeta.
  rewrite Hlstat, Hold. cbn beta iota zeta. rewrite Hremove, Hold.
  cbn [fault with_entries]. rewrite Hsymlink. reflexivity.
Qed.

(** X19.  The driver that [NewDriver] returns with apparmor enabled
    starts privileged containers through the very link that
    [NewDriver] has created, and that link points to the [lxc-start]
    found on the host. *)
Theorem NewDriver_unconfined (fs : fsys) (d : driver) (c : Command)
    (configPath : string) :
  snd (NewDriver h root true fs) = Return (Value (Some d, None)) ->
  Privileged c = true ->
  exists source name rest,
    LookPath h "lxc-start" = inl source
    /\ Run_params d c configPath = name :: rest
    /\ entries (fst (NewDriver h root true fs)) !! name
       = Some (Link source).
Proof.
  intros Hnew Hpriv.
  unfold NewDriver, call, bind, return_ in *.
  assert (Hlink : forall fs1,
            linkLxcStart h root fs = (fs1, Return None) ->
            exists source,
              LookPath h "lxc-start" = inl source
              /\ entries fs1 !! target = Some (Link source)).
  { unfold linkLxcStart, bind, os_Lstat, os_Remove, os_Symlink, return_, ret.
    fold target. intros fs1.
    destruct (LookPath h "lxc-start") as [source|e0]; [| discriminate].
    intros Hrun. exists source. split; [reflexivity |]. revert Hrun.
    cbn beta iota zeta.
    destruct (fault fs OpLstat target) as [e1|].
    { destruct (negb (IsNotExist (Some e1))); [discriminate |].
      destruct (fault fs OpSymlink target) as [e3|]; [discriminate |].
      destruct (entries fs !! target); [discriminate |].
      intros [= <-]. cbn [with_entries entries]. apply lookup_insert_eq. }
    destruct (entries fs !! target) as [old|] eqn:Hold.
    - cbn beta iota zeta.
      destruct (fault fs OpRemove target) as [e2|]; [discriminate |].
      rewrite Hold. cbn [fault with_entries entries].
      destruct (fault fs OpSymlink target) as [e3|]; [discriminate |].
      rewrite lookup_delete_eq. intros [= <-].
      cbn [with_entries entries]. apply lookup_insert_eq.
    - cbn [IsNotExist ENOENT negb]. cbn beta iota zeta.
      destruct (fault fs OpSymlink target) as [e3|]; [discriminate |].
      rewrite Hold. intros [= <-].
      cbn [with_entries entries]. apply lookup_insert_eq. }
  destruct (linkLxcStart h root fs) as [fs1 [[]|[e|]|]];
    cbn [fst snd] in *; try discriminate.
  destruct (Hlink fs1 eq_refl) as (source & Hfound & Htarget).
  destruct (rootIsShared h) as [shared|]; [| discriminate].
  injection Hnew as <-.
  exists source, target.
  unfold Run_params. rewrite Hpriv. cbn [apparmor Lxc.root].
  destruct (Net c), (String.eqb (User c) EmptyString),
    (String.eqb (WorkingDir c) EmptyString);
    cbn [app insert list_insert]; eexists;
    (split; [exact Hfound | split; [reflexivity | exact Htarget]]).
Qed.

End Construction.

(** The stale link of the driver is replaced. *)
Lemma linkLxcStart_links_witness :
  let h := Demo.host_with "RUNNING" 0 None EmptyString in
  Setup.linkLxcStart h "/var/lib/docker" Sample.stale
  = (Setup.with_entries
       (<["/var/lib/docker/lxc-start-unconfined"
          := Setup.Link "/usr/bin/lxc-start"]>
          (Setup.entries Sample.stale)) Sample.stale,
     Return None)
  /\ Setup.linkLxcStart h "/var/lib/docker"
       (fst (Setup.linkLxcStart h "/var/lib/docker" Sample.stale))
     = Setup.linkLxcStart h "/var/lib/docker" Sample.stale.
Proof.
  intros h.
  apply (linkLxcStart_links h "/var/lib/docker" Sample.stale
           "/usr/bin/lxc-start"); [reflexivity | intros op; reflexivity].
Defined.

Lemma linkLxcStart_frame_witness :
  let h := Demo.host_with "RUNNING" 0 None EmptyString in
  Setup.entries
    (fst (Setup.linkLxcStart h "/var/lib/docker" (Sample.full Demo.enoent)))
  !! "/var/lib/docker/containers"
  = Setup.entries (Sample.full Demo.enoent) !! "/var/lib/docker/containers".
Proof.
  intros h.
  apply (proj1 (proj2 (linkLxcStart_frame h "/var/lib/docker"
                         (Sample.full Demo.enoent)))).
  discriminate.
Defined.

Lemma linkLxcStart_not_atomic_witness :
  let h := Demo.host_with "RUNNING" 0 None EmptyString in
  Setup.linkLxcStart h "/var/lib/docker" (Sample.full Demo.enoent)
  = (Setup.with_entries
       (delete "/var/lib/docker/lxc-start-unconfined"
          (Setup.entries (Sample.full Demo.enoent)))
       (Sample.full Demo.enoent),
     Return (Some Demo.enoent)).
Proof.
  intros h.
  apply (linkLxcStart_not_atomic h "/var/lib/docker"
           (Sample.full Demo.enoent) "/usr/bin/lxc-start"
           (Setup.Link "/old/lxc-start") Demo.enoent); reflexivity.
Defined.

Lemma NewDriver_unconfined_witness :
  let h :=
    Demo.mounted "25 0 8:1 / / rw,relatime shared:1 - ext4 /dev/sda1 rw" in
  exists source name rest,
    Lxc.LookPath h "lxc-start" = inl source
    /\ Lxc.Run_params Demo.shared Demo.web "/cfg" = name :: rest
    /\ Setup.entries
         (fst (Setup.NewDriver h "/var/lib/docker" true Sample.stale))
       !! name
       = Some (Setup.Link source).
Proof.
  intros h.
  apply (NewDriver_unconfined h "/var/lib/docker" Sample.stale Demo.shared
           Demo.web "/cfg"); reflexivity.
Defined.

(** ** The init function *)

Section InitFunc.
Import Go Lxc Init.
Context `{ErrorText}.

Variable w : inside.

Lemma run_step_ok (step : prepare) (done : list action) :
  Prepare w step = None -> run_step w step done = (done ++ [Did step], Next tt).
Proof. intros Hok. unfold run_step. now rewrite Hok. Qed.

Lemma run_step_failed (step : prepare) (done : list action) (e : error) :
  Prepare w step = Some e ->
  run_step w step done = (done ++ [Did step], Return (Returned (Some e))).
Proof. intros Hbad. unfold run_step. now rewrite Hbad. Qed.

(** X20.  The preparation steps run in the order host name, network,
    capabilities, working directory, user.  The first one that fails
    ends the function with its error: no later step is run and no
    command is looked up or executed. *)
Theorem initFunc_first_failure (Args : list string) (done : list action)
    (pre post : list prepare) (bad : prepare) (e : error) :
  [setupHostname; setupNetworking; setupCapabilities; setupWorkingDirectory;
   changeUser] = pre ++ bad :: post ->
  Forall (fun step => Prepare w step = None) pre ->
  Prepare w bad = Some e ->
  initFunc w Args done
  = (done ++ map Did (pre ++ [bad]), Return (Returned (Some e))).
Proof.
  intros Hsteps Hpre Hbad. unfold initFunc.
  repeat match goal with
         | Hp : Forall _ (_ :: _) |- _ =>
             apply Forall_cons in Hp; destruct Hp as [? Hp]
         | |- _ =>
             destruct pre as [|? pre]; cbn [app] in Hsteps;
             injection Hsteps as <- Hsteps
         end;
    try (destruct pre; discriminate);
    unfold bind;
    repeat (rewrite run_step_ok by assumption);
    rewrite (run_step_failed _ _ e) by assumption;
    cbn [map app]; rewrite <- ?app_assoc; reflexivity.
Qed.

(** X21.  The init function never returns nil.  It ends in one of four
    ways: with an error; by leaving the process with status 127, when
    the command is not found; by becoming the command, started with
    all the arguments; or by a panic, which only an empty argument list
    causes. *)
Theorem initFunc_endings (Args : list string) (done : list action) :
  match snd (initFunc w Args done) with
  | Return (Returned err) => err <> None
  | Return (Exit code) =>
      code = 127
      /\ exists arg0 rest e, Args = arg0 :: rest /\ Locate w arg0 = inr e
  | Return (Replaced path argv) =>
      argv = Args
      /\ exists arg0 rest, Args = arg0 :: rest /\ Locate w arg0 = inl path
  | Return (Panicked msg) => Args = []
  | Next _ | Stuck => False
  end.
Proof.
  unfold initFunc, bind, run_step, log_Printf, syscall_Exec, return_.
  repeat match goal with
         | |- context [Prepare w ?step] =>
             destruct (Prepare w step); cbn beta iota zeta;
             [cbn [snd]; discriminate |]
         end.
  destruct Args as [|arg0 rest]; [reflexivity |].
  cbn [index lookup list_lookup]. cbn beta iota zeta.
  destruct (Locate w arg0) as [path|e] eqn:Hlocate; cbn beta iota zeta.
  - destruct (ExecError w path (arg0 :: rest)); cbn [snd].
    + discriminate.
    + split; [reflexivity |]. exists arg0, rest. split; [reflexivity |].
      exact Hlocate.
  - cbn [snd]. split; [reflexivity |]. exists arg0, rest, e.
    split; [reflexivity | exact Hlocate].
Qed.

End InitFunc.

(** The capabilities cannot be set. *)
Lemma initFunc_first_failure_witness :
  Init.initFunc (H := Demo.text)
    (Sample.failing_step Init.setupCapabilities Demo.enoent) ["true"] []
  = ([] ++ map Init.Did
            ([Init.setupHostname; Init.setupNetworking]
             ++ [Init.setupCapabilities]),
     Return (Init.Returned (Some Demo.enoent))).
Proof.
  apply (initFunc_first_failure (H := Demo.text)
           (Sample.failing_step Init.setupCapabilities Demo.enoent)
           ["true"] [] [Init.setupHostname; Init.setupNetworking]
           [Init.setupWorkingDirectory; Init.changeUser]
           Init.setupCapabilities Demo.enoent).
  - reflexivity.
  - repeat constructor.
  - reflexivity.
Defined.

Example initFunc_samples :
  snd (Init.initFunc (H := Demo.text) (Sample.ready None) ["true"; "-x"] [])
  = Return (Init.Replaced "/bin/true" ["true"; "-x"])
  /\ Init.initFunc (H := Demo.text) (Sample.ready None) ["false"] []
     = (map Init.Did
          [Init.setupHostname; Init.setupNetworking; Init.setupCapabilities;
           Init.setupWorkingDirectory; Init.changeUser]
        ++ [Init.Printf "Unable to locate false"],
        Return (Init.Exit 127))
  /\ snd (Init.initFunc (H := Demo.text) (Sample.ready (Some Demo.enoent))
            ["true"] [])
     = Return (Init.Returned
                 (Some (Lxc.errorString
                          "dockerinit unable to execute /bin/true - no such file or directory")))
  /\ snd (Init.initFunc (H := Demo.text) (Sample.ready None) [] [])
     = Return (Init.Panicked "index out of range").
Proof. repeat split. Qed.

(** The template cannot be rendered: the file has been created and
    closed, and nothing is started. *)
Example Run_template_failure :
  Lxc.Run 1 (Sample.unrenderable Demo.enoent) Demo.direct Demo.plain true
    Lxc.initial
  = ({| Lxc.trace :=
          [Lxc.EvCreate "/var/lib/docker/containers/c0ffee/config.lxc";
           Lxc.EvExecute "/var/lib/docker/containers/c0ffee/config.lxc";
           Lxc.EvFileClose "/var/lib/docker/containers/c0ffee/config.lxc"];
        Lxc.execs := 0; Lxc.sleeps := 0; Lxc.Path := EmptyString;
        Lxc.Args := []; Lxc.ProcessState := None; Lxc.waitErr := None |},
     Return (-1, Some Demo.enoent)).
Proof. reflexivity. Qed.
